(** * IoT GPT: the scoring, classification and scene-generation core of app.py

    A shallow embedding of the pure and database-backed functions of
    [app.py], and the properties of them that the specification states.

    Modelling conventions.
    - A Python [str] is a [string]; each character stands for one code
      point in the range U+0000..U+00FF, on which [str.lower] is
      length-preserving and is given by [lower_char] below.
    - A Python [int] is a [Z].
    - A Python [set] of strings is a [gset string]; [list(s)] enumerates
      it in an order the program has no control over, so statements about
      such a list are made up to permutation.
    - A calendar date is its proleptic Gregorian ordinal (a [Z]), so that
      [(a - b).days] is the difference of the ordinals.  The column
      [users.last_visit] holds NULL or the ISO text of a date, and
      [datetime.fromisoformat(d.isoformat()).date()] is [d].
    - The SQLite database is a record of its three tables. *)

From Stdlib Require Import ZArith Ascii.
From stdpp Require Import base gmap strings list pretty.

Local Open Scope Z_scope.

(** ** Strings *)

Module Str.

(** [str.lower] on one code point below U+0100: A..Z and the accented
    capitals U+00C0..U+00DE (the multiplication sign U+00D7 apart) move
    up by 32, everything else is left alone. *)
Definition lower_char (c : ascii) : ascii :=
  let n := N_of_ascii c in
  if ((65 <=? n) && (n <=? 90) ||
      (192 <=? n) && (n <=? 222) && negb (n =? 215))%N
  then ascii_of_N (n + 32) else c.

(** [s.lower()] *)
Fixpoint lower (s : string) : string :=
  match s with
  | EmptyString => EmptyString
  | String c s' => String (lower_char c) (lower s')
  end.

(** [s.startswith(p)] *)
Fixpoint startswith (s p : string) {struct p} : bool :=
  match p with
  | EmptyString => true
  | String a p' =>
      match s with
      | EmptyString => false
      | String b s' => Ascii.eqb a b && startswith s' p'
      end
  end.

(** [x in t] for two strings: [x] occurs in [t] as a contiguous run. *)
Fixpoint contains (x t : string) : bool :=
  startswith t x ||
  match t with
  | EmptyString => false
  | String _ t' => contains x t'
  end.

(** What [x in t] means: [t] is some text, then [x], then some more
    text. *)
Definition occurs_in (x t : string) : Prop :=
  ∃ pre post, t = pre +:+ x +:+ post.

(** [any(x in t for x in xs)] *)
Definition any_in (t : string) (xs : list string) : bool :=
  existsb (fun x => contains x t) xs.

End Str.

(** ** WOKWI PART MAPPING *)

(** [component_to_wokwi_part(name)]; [None] is Python's [None]. *)
Definition component_to_wokwi_part (name : string) : option string :=
  let n := Str.lower name in
  if Str.contains "dht" n then Some "wokwi-dht11"
  else if Str.contains "ultrasonic" n || Str.contains "hc-sr04" n
       then Some "wokwi-hc-sr04"
  else if Str.contains "lcd" n then Some "wokwi-lcd1602"
  else if Str.contains "oled" n then Some "wokwi-ssd1306"
  else if Str.contains "relay" n then Some "wokwi-relay"
  else if Str.contains "servo" n then Some "wokwi-servo"
  else if Str.contains "led" n then Some "wokwi-led"
  else if Str.contains "buzzer" n then Some "wokwi-buzzer"
  else if Str.contains "gas" n || Str.contains "mq" n then Some "wokwi-mq2"
  else None.

(** ** DOMAIN DETECTION *)

(** The body of the loop of [detect_domains]: four independent tests on
    the lower-cased component, each adding its tag to the set. *)
Definition detect_step (domains : gset string) (c : string) : gset string :=
  let t := Str.lower c in
  let domains :=
    if Str.any_in t ["sensor"; "dht"; "mq"; "ultrasonic"; "ir"]
    then {["sensor"]} ∪ domains else domains in
  let domains :=
    if Str.any_in t ["lcd"; "oled"; "display"]
    then {["display"]} ∪ domains else domains in
  let domains :=
    if Str.any_in t ["wifi"; "cloud"; "mqtt"; "thingspeak"; "esp"]
    then {["cloud"]} ∪ domains else domains in
  let domains :=
    if Str.any_in t ["relay"; "motor"; "buzzer"; "pump"; "servo"]
    then {["actuator"]} ∪ domains else domains in
  domains.

(** The set built by the loop, before [list(domains)]. *)
Definition detect_domains_set (components : list string) : gset string :=
  foldl detect_step ∅ components.

(** [detect_domains(components)] *)
Definition detect_domains (components : list string) : list string :=
  elements (detect_domains_set components).

(** ** GENERATE WOKWI DIAGRAM JSON *)

(** One entry of the [parts] list. *)
Record part := Part {
  part_id : string;
  part_type : string;
  part_top : Z;
  part_left : Z
}.

(** The [diagram] dictionary.  The source returns
    [json.dumps(diagram, indent=2)], the serialisation of this value. *)
Record diagram := Diagram {
  version : Z;
  author : string;
  editor : string;
  parts : list part;
  connections : list (list string)
}.

(** Truth value of what [component_to_wokwi_part] returns: [None] and the
    empty string are false. *)
Definition truthy (o : option string) : bool :=
  match o with
  | Some (String _ _) => true
  | _ => false
  end.

(** The variables the placement loop updates. *)
Record layout := Layout {
  l_parts : list part;
  l_x : Z;
  l_y : Z;
  l_idx : Z
}.

(** The body of the loop [for c in components]. *)
Definition place (st : layout) (c : string) : layout :=
  let part := component_to_wokwi_part c in
  if truthy part then
    let parts := l_parts st ++
      [Part ("p" +:+ pretty (l_idx st)) (default EmptyString part) (l_y st) (l_x st)] in
    let idx := l_idx st + 1 in
    let x := l_x st + 120 in
    if x >? 180 then Layout parts (-180) (l_y st + 120) idx
    else Layout parts x (l_y st) idx
  else st.

(** [generate_wokwi_diagram(mcu, components)], before serialisation. *)
Definition generate_wokwi_diagram (mcu : string) (components : list string)
  : diagram :=
  let board :=
    if Str.contains "esp32" (Str.lower mcu) then "wokwi-esp32-devkit-v1"
    else if Str.contains "esp8266" (Str.lower mcu) then "wokwi-esp8266"
    else "wokwi-arduino-uno" in
  let parts := [Part "mcu" board 0 0] in
  let st := foldl place (Layout parts (-180) 140 0) components in
  Diagram 1 "IoT GPT" "wokwi" (l_parts st) [].

(** ** WOKWI SIMULATOR LINK *)

(** [get_wokwi_link(mcu)] *)
Definition get_wokwi_link (mcu : string) : string :=
  let mcu := Str.lower mcu in
  if Str.contains "esp32" mcu then "https://wokwi.com/projects/new/esp32"
  else if Str.contains "esp8266" mcu
       then "https://wokwi.com/projects/new/esp8266"
  else "https://wokwi.com/projects/new/arduino-uno".

(** ** The database *)

(** A row of [users]. *)
Record user_row := UserRow {
  username : string;
  password : string;
  xp : Z;
  streak : Z;
  last_visit : option Z
}.

(** The three tables of [iotgpt.db]: [users] keyed by its primary key,
    [chats] as rows (user_id, project) and [domains_used] as rows
    (user_id, domain), both in insertion order. *)
Record db := Db {
  users : gmap Z user_row;
  chats : list (Z * option string);
  domains_used : list (Z * string)
}.

(** [SELECT 1 FROM domains_used WHERE user_id=? AND domain=?] followed by
    [fetchone()], as a truth value. *)
Definition domain_used (rows : list (Z * string)) (user_id : Z) (d : string)
  : bool :=
  bool_decide ((user_id, d) ∈ rows).

(** ** XP + STREAK *)

(** The body of the loop [for d in domains]: the rows of [domains_used]
    as this connection sees them, and [gained_xp]. *)
Definition award (user_id : Z) (st : list (Z * string) * Z) (d : string)
  : list (Z * string) * Z :=
  let '(rows, gained_xp) := st in
  if domain_used rows user_id d then (rows, gained_xp + 5)
  else (rows ++ [(user_id, d)], gained_xp + 30).

(** [update_xp_and_streak(user_id, domains)] on the database [d], on the
    day [today].  [None] stands for the exception raised when the user
    has no row ([fetchone()] is [None] and cannot be unpacked); nothing
    has been written at that point.  Otherwise the committed database and
    the triple [(xp, streak, gained_xp)] are returned. *)
Definition update_xp_and_streak (d : db) (today : Z) (user_id : Z)
    (domains : list string) : option (db * (Z * Z * Z)) :=
  match users d !! user_id with
  | None => None
  | Some u =>
      let streak :=
        match last_visit u with
        | Some last =>
            if today - last =? 1 then streak u + 1
            else if today - last >? 1 then 1
            else streak u
        | None => 1
        end in
      let gained_xp := 0 in
      let '(rows, gained_xp) :=
        foldl (award user_id) (domains_used d, gained_xp) domains in
      let gained_xp :=
        if bool_decide ("cloud" ∈ domains) then gained_xp + 30
        else gained_xp in
      let gained_xp :=
        if bool_decide ("display" ∈ domains) then gained_xp + 20
        else gained_xp in
      let gained_xp :=
        if bool_decide ("actuator" ∈ domains) then gained_xp + 20
        else gained_xp in
      let xp := xp u + gained_xp in
      let u' := UserRow (username u) (password u) xp streak (Some today) in
      Some (Db (<[user_id := u']> (users d)) (chats d) rows,
            (xp, streak, gained_xp))
  end.

(** ** AI FUNCTION — PROJECT DESIGN *)

Module Text.

(** The characters [str.strip()] removes, among the code points below
    U+0100: TAB..CR, FS..US, the space, NEL and the no-break space. *)
Definition is_space (c : ascii) : bool :=
  let n := N_of_ascii c in
  ((9 <=? n) && (n <=? 13) || (28 <=? n) && (n <=? 32) ||
   (n =? 133) || (n =? 160))%N.

(** [s.lstrip()] *)
Fixpoint lstrip (s : string) : string :=
  match s with
  | EmptyString => EmptyString
  | String c s' => if is_space c then lstrip s' else s
  end.

(** [s.rstrip()] *)
Fixpoint rstrip (s : string) : string :=
  match s with
  | EmptyString => EmptyString
  | String c s' =>
      match rstrip s' with
      | EmptyString => if is_space c then EmptyString
                       else String c EmptyString
      | r => String c r
      end
  end.

(** [s.strip()] *)
Definition strip (s : string) : string := rstrip (lstrip s).

(** The scan of [s.split(sep)] for a non-empty [sep]: [skip] counts the
    characters of a separator still to be passed over, [cur] is the
    piece being collected. *)
Fixpoint split_go (sep : string) (skip : nat) (cur : string) (s : string)
  : list string :=
  match s with
  | EmptyString => [cur]
  | String c s' =>
      match skip with
      | S k => split_go sep k cur s'
      | O =>
          if Str.startswith s sep
          then cur :: split_go sep (String.length sep - 1) EmptyString s'
          else split_go sep O (cur +:+ String c EmptyString) s'
      end
  end.

(** [s.split(sep)], [sep] not empty. *)
Definition split (s sep : string) : list string :=
  split_go sep O EmptyString s.

End Text.

(** What [json.loads] can return: [None], a [bool], an [int], a [float]
    (given by mantissa and binary exponent), a [str], a [list] or a
    [dict] with string keys, which keeps its items in insertion order and
    is given by the list of its items, each key once. *)
Local Unset Elimination Schemes.
Inductive json :=
| JNull
| JBool (b : bool)
| JInt (n : Z)
| JFloat (m e : Z)
| JStr (s : string)
| JList (l : list json)
| JDict (m : list (string * json)).
Local Set Elimination Schemes.

Module Py.

(** The value stored under the key [k] among the items of a [dict]. *)
Fixpoint item (k : string) (m : list (string * json)) : option json :=
  match m with
  | [] => None
  | (k', v) :: m' => if decide (k' = k) then Some v else item k m'
  end.

(** [v[k]] for a string [k]; [None] when Python raises ([KeyError] on a
    dictionary without the key, [TypeError] on anything else). *)
Definition getitem (v : json) (k : string) : option json :=
  match v with
  | JDict m => item k m
  | _ => None
  end.

(** The characters of a string, each as a string of its own. *)
Fixpoint chars (s : string) : list json :=
  match s with
  | EmptyString => []
  | String c s' => JStr (String c EmptyString) :: chars s'
  end.

(** The items [for c in v] runs over; [None] when [v] is not iterable.
    A dictionary yields its keys. *)
Definition iter (v : json) : option (list json) :=
  match v with
  | JList l => Some l
  | JStr s => Some (chars s)
  | JDict m => Some (JStr <$> m.*1)
  | _ => None
  end.

(** [v] as the receiver of [v.lower()]: only a [str] has the method. *)
Definition as_str (v : json) : option string :=
  match v with
  | JStr s => Some s
  | _ => None
  end.

(** The strings of an iterable all of whose items are strings; [None]
    when iterating or a call of [.lower()] raises. *)
Definition str_items (v : json) : option (list string) :=
  iter v ≫= mapM as_str.

(** Truth value of a value. *)
Definition truth (v : json) : bool :=
  match v with
  | JNull => false
  | JBool b => b
  | JInt n => negb (n =? 0)
  | JFloat m _ => negb (m =? 0)
  | JStr s => negb (bool_decide (s = EmptyString))
  | JList l => negb (bool_decide (l = []))
  | JDict m => negb (bool_decide (m = []))
  end.

End Py.

(** What [get_ai_design] does with the text of the reply before it calls
    [json.loads]: strip it and, when it opens with a fence, keep what lies
    between the first fence and the next one.  A text that starts with a
    fence is split into two pieces at least, so the index 1 exists. *)
Definition unfence (content : string) : string :=
  let text := Text.strip content in
  if Str.startswith text "```"
  then default EmptyString (Text.split text "```" !! 1%nat)
  else text.

(** What one request cannot see from the inside: the reply of the chat
    completion service to the prompt built from the project idea, [None]
    when the call raises. *)
Definition reply := option string.

Section Handler.

(** [json.loads], a function of the standard library: the value of a
    text, [None] when it raises [JSONDecodeError]. *)
Variable json_loads : string → option json.

(** [get_ai_design(project_idea)], given the service's reply to its
    prompt; [None] when the function raises. *)
Definition get_ai_design (r : reply) : option json :=
  content ← r; json_loads (unfence content).

(** The variables of [home] that the template receives. *)
Record locals := Locals {
  v_data : option json;
  v_gained : option Z;
  v_sim_link : option string;
  v_wokwi_json : option diagram;
  v_xp : Z;
  v_streak : Z
}.

(** The [try] block of [home], statement by statement.  Each statement
    either raises, and the [except] clause leaves the database and the
    variables as they are at that point, or goes on to the next. *)
Definition home_try (d : db) (today user_id : Z) (project : option string)
    (r : reply) (vars : locals) : db * locals :=
  match get_ai_design r with
  | None => (d, vars)
  | Some data =>
  let vars := Locals (Some data) (v_gained vars) (v_sim_link vars)
                     (v_wokwi_json vars) (v_xp vars) (v_streak vars) in
  match Py.getitem data "components" ≫= Py.str_items with
  | None => (d, vars)
  | Some components =>
  let domains := detect_domains components in
  match update_xp_and_streak d today user_id domains with
  | None => (d, vars)
  | Some (d, (xp, streak, gained)) =>
  let vars := Locals (v_data vars) (Some gained) (v_sim_link vars)
                     (v_wokwi_json vars) xp streak in
  match Py.getitem data "microcontroller" ≫= Py.as_str with
  | None => (d, vars)
  | Some mcu =>
  let vars := Locals (v_data vars) (v_gained vars)
                     (Some (get_wokwi_link mcu))
                     (v_wokwi_json vars) (v_xp vars) (v_streak vars) in
  let vars := Locals (v_data vars) (v_gained vars) (v_sim_link vars)
                     (Some (generate_wokwi_diagram mcu components))
                     (v_xp vars) (v_streak vars) in
  (Db (users d) (chats d ++ [(user_id, project)]) (domains_used d), vars)
  end end end end.

(** Whether building the arguments of [render_template] goes through:
    each of the seven fields is read from [data] when [data] is true. *)
Definition renders (vars : locals) : bool :=
  match v_data vars with
  | Some data =>
      if Py.truth data then
        forallb (fun k => bool_decide (is_Some (Py.getitem data k)))
          ["introduction"; "microcontroller"; "components"; "pin_config";
           "algorithm"; "flowchart"; "arduino_code"]
      else true
  | None => true
  end.

(** [home()] for a POST by the logged-in user [user_id] with the form field
    [project]: the database afterwards, and the variables handed to the
    template, or [None] when an exception leaves [home] (the user has no
    row, or a field read for the template is missing). *)
Definition home (d : db) (today user_id : Z) (project : option string)
    (r : reply) : db * option locals :=
  match users d !! user_id with
  | None => (d, None)
  | Some u =>
      let vars := Locals None None None None (xp u) (streak u) in
      let '(d, vars) := home_try d today user_id project r vars in
      (d, if renders vars then Some vars else None)
  end.

End Handler.

(** * The specification's reading of the tables *)

(** The part-type rules in priority order: the markers of a rule and the
    part it stands for. *)
Definition part_rules : list (list string * string) :=
  [ (["dht"], "wokwi-dht11");
    (["ultrasonic"; "hc-sr04"], "wokwi-hc-sr04");
    (["lcd"], "wokwi-lcd1602");
    (["oled"], "wokwi-ssd1306");
    (["relay"], "wokwi-relay");
    (["servo"], "wokwi-servo");
    (["led"], "wokwi-led");
    (["buzzer"], "wokwi-buzzer");
    (["gas"; "mq"], "wokwi-mq2") ].

(** First matching rule wins: the part of the first rule one of whose
    markers occurs in [n]. *)
Fixpoint first_match (n : string) (rules : list (list string * string))
  : option string :=
  match rules with
  | [] => None
  | (markers, ty) :: rules' =>
      if Str.any_in n markers then Some ty else first_match n rules'
  end.

(** The markers of each domain tag; a string that is not a tag has none. *)
Definition domain_markers (tag : string) : list string :=
  if decide (tag = "sensor")
  then ["sensor"; "dht"; "mq"; "ultrasonic"; "ir"]
  else if decide (tag = "display") then ["lcd"; "oled"; "display"]
  else if decide (tag = "cloud")
  then ["wifi"; "cloud"; "mqtt"; "thingspeak"; "esp"]
  else if decide (tag = "actuator")
  then ["relay"; "motor"; "buzzer"; "pump"; "servo"]
  else [].

(** The board families, and the family a simulator URL and a board part
    type belong to. *)
Inductive family := ESP32 | ESP8266 | ArduinoUno.

Definition url_family (url : string) : option family :=
  if decide (url = "https://wokwi.com/projects/new/esp32") then Some ESP32
  else if decide (url = "https://wokwi.com/projects/new/esp8266")
  then Some ESP8266
  else if decide (url = "https://wokwi.com/projects/new/arduino-uno")
  then Some ArduinoUno
  else None.

Definition board_family (ty : string) : option family :=
  if decide (ty = "wokwi-esp32-devkit-v1") then Some ESP32
  else if decide (ty = "wokwi-esp8266") then Some ESP8266
  else if decide (ty = "wokwi-arduino-uno") then Some ArduinoUno
  else None.

(** The board-selection rule: [esp32] first, else [esp8266], else the
    Arduino default, on the lower-cased name. *)
Definition select_family (mcu : string) : family :=
  if Str.contains "esp32" (Str.lower mcu) then ESP32
  else if Str.contains "esp8266" (Str.lower mcu) then ESP8266
  else ArduinoUno.

(** The grid the layout loop walks through, in closed form: four columns
    120 apart from left -180, rows 120 apart from top 140. *)
Definition grid_left (i : nat) : Z := -180 + 120 * (Z.of_nat i `mod` 4).
Definition grid_top (i : nat) : Z := 140 + 120 * (Z.of_nat i `div` 4).

(** The identifier of the [i]-th placed part, [f"p{idx}"]. *)
Definition part_name (i : nat) : string := "p" +:+ pretty (Z.of_nat i).

(** The [i]-th placed part, of type [ty]. *)
Definition placed (i : nat) (ty : string) : part :=
  Part (part_name i) ty (grid_top i) (grid_left i).

(** The part types of the components that resolve to one, in input
    order. *)
Definition resolved (components : list string) : list string :=
  omap component_to_wokwi_part components.

(** The board part of a diagram for [mcu]. *)
Definition board_part (fam : family) : part :=
  Part "mcu"
    match fam with
    | ESP32 => "wokwi-esp32-devkit-v1"
    | ESP8266 => "wokwi-esp8266"
    | ArduinoUno => "wokwi-arduino-uno"
    end 0 0.

(** Five components that all resolve to a part. *)
Definition five_components : list string :=
  ["DHT11"; "LCD 16x2"; "Relay module"; "Servo"; "Buzzer"].

(** The award for one detected domain: 5 when the user has a usage record
    for it, 30 otherwise. *)
Definition domain_award (rows : list (Z * string)) (user_id : Z) (d : string)
  : Z :=
  if domain_used rows user_id d then 5 else 30.

(** The flat bonuses: 30 for cloud, 20 for display, 20 for actuator. *)
Definition flat_bonus (domains : list string) : Z :=
  (if bool_decide ("cloud" ∈ domains) then 30 else 0) +
  (if bool_decide ("display" ∈ domains) then 20 else 0) +
  (if bool_decide ("actuator" ∈ domains) then 20 else 0).

(** The sum of a list of integers. *)
Definition sumZ (l : list Z) : Z := foldr Z.add 0 l.

(** The gain the specification states for the detected [domains], against
    the usage records [rows]. *)
Definition xp_gain (rows : list (Z * string)) (user_id : Z)
    (domains : list string) : Z :=
  sumZ (domain_award rows user_id <$> domains) + flat_bonus domains.

(** A database with the single user 7, who has not visited yet. *)
Definition db_new : db :=
  Db {[ 7 := UserRow "ann" "secret" 0 0 None ]} [] [].

(** The same user with a streak of 4, last seen on day 99, with a usage
    record for the domain sensor. *)
Definition db_seen : db :=
  Db {[ 7 := UserRow "ann" "secret" 120 4 (Some 99) ]} [] [(7, "sensor")].

(** The fields the specification requires of a design document. *)
Definition required_fields : list string :=
  ["introduction"; "microcontroller"; "components"; "pin_config";
   "algorithm"; "flowchart"; "arduino_code"].

(** A design request fails, in the specification's words: the call to the
    service raises, or the text is not parseable, or the document lacks a
    required field. *)
Definition design_failed (json_loads : string → option json) (r : reply)
  : Prop :=
  r = None ∨ get_ai_design json_loads r = None ∨
  ∃ data k, get_ai_design json_loads r = Some data ∧
            k ∈ required_fields ∧ Py.getitem data k = None.

(** What the database holds about one user: the row, and the usage
    records. *)
Definition user_state (d : db) (user_id : Z)
  : option user_row * list (Z * string) :=
  (users d !! user_id, filter (λ row, row.1 = user_id) (domains_used d)).

(** The double quote and the line feed. *)
Definition dquote : string := String "034" EmptyString.
Definition nl : string := String "010" EmptyString.

(** A document with the field [components] only, its text, and a
    [json.loads] that knows this one text. *)
Definition components_only : json :=
  JDict [("components", JList [JStr "DHT11"])].

Definition components_only_text : string :=
  "{" +:+ dquote +:+ "components" +:+ dquote +:+ ": [" +:+
  dquote +:+ "DHT11" +:+ dquote +:+ "]}".

Definition loads_components_only (text : string) : option json :=
  if decide (text = components_only_text) then Some components_only
  else None.

(** After blanks, a text that [json.loads] accepts goes on with a
    character that can start a value: a brace, a bracket, a double quote,
    a minus sign, a digit, or the first letter of [true], [false],
    [null], [NaN] or [Infinity]. *)
Fixpoint json_value_start (text : string) : bool :=
  match text with
  | EmptyString => false
  | String c text' =>
      let n := N_of_ascii c in
      if ((n =? 32) || (n =? 9) || (n =? 10) || (n =? 13))%N
      then json_value_start text'
      else bool_decide (c ∈ ["{"; "["; "034"; "-"; "0"; "1"; "2"; "3"; "4";
                             "5"; "6"; "7"; "8"; "9"; "t"; "f"; "n"; "N";
                             "I"]%char)
  end.

(** A short design document with its seven fields, as a text. *)
Definition design_text : string :=
  let str (s : string) := dquote +:+ s +:+ dquote in
  "{" +:+ str "introduction" +:+ ": " +:+ str "Reads the temperature" +:+
  ", " +:+ str "microcontroller" +:+ ": " +:+ str "ESP32" +:+
  ", " +:+ str "components" +:+ ": [" +:+ str "DHT11" +:+ "]" +:+
  ", " +:+ str "pin_config" +:+ ": [" +:+ str "DHT11 data to GPIO 4" +:+ "]" +:+
  ", " +:+ str "algorithm" +:+ ": [" +:+
     str "1" +:+ ", " +:+ str "2" +:+ ", " +:+ str "3" +:+ ", " +:+
     str "4" +:+ ", " +:+ str "5" +:+ ", " +:+ str "6" +:+ ", " +:+
     str "7" +:+ "]" +:+
  ", " +:+ str "flowchart" +:+ ": " +:+ str "flowchart TD" +:+
  ", " +:+ str "arduino_code" +:+ ": " +:+ str "void setup() {}" +:+ "}".

(** The same text in a fence with the language tag [json]. *)
Definition design_text_fenced : string :=
  "```json" +:+ nl +:+ design_text +:+ nl +:+ "```".


(** * Further notions for the progression engine *)

(** The detected domains the user has no usage record for, each once. *)
Definition fresh_domains (rows : list (Z * string)) (user_id : Z)
    (domains : list string) : list string :=
  filter (λ d, domain_used rows user_id d = false) (remove_dups domains).

(** What the application keeps true of a row of [users]: the XP is not
    negative, and a user who has visited has a streak of one at least. *)
Definition user_ok (u : user_row) : Prop :=
  0 ≤ xp u ∧ (last_visit u = None ∨ 1 ≤ streak u).

(** The database [db_seen] after a visit on day 100 that detects the
    domain cloud, with the XP the visit leaves. *)
Definition db_seen_cloud (xp' : Z) : db :=
  Db (<[7 := UserRow "ann" "secret" xp' 5 (Some 100)]> (users db_seen))
     [] [(7, "sensor"); (7, "cloud")].

(** The database [db_new] after a first visit on day 100 that detects
    the domain sensor. *)
Definition db_new_sensor : db :=
  Db (<[7 := UserRow "ann" "secret" 30 1 (Some 100)]> (users db_new))
     [] [(7, "sensor")].

(** A [json.loads] that knows the text [design_text] and answers with the
    document it denotes. *)
Definition design_document : json :=
  JDict [("introduction", JStr "Reads the temperature");
         ("microcontroller", JStr "ESP32");
         ("components", JList [JStr "DHT11"]);
         ("pin_config", JList [JStr "DHT11 data to GPIO 4"]);
         ("algorithm", JList [JStr "1"; JStr "2"; JStr "3"; JStr "4";
                              JStr "5"; JStr "6"; JStr "7"]);
         ("flowchart", JStr "flowchart TD");
         ("arduino_code", JStr "void setup() {}")].

Definition loads_design (text : string) : option json :=
  if decide (text = design_text) then Some design_document else None.

(** * AUTH ROUTES *)

(** A request to a form route: a GET, or a POST with the two fields of
    the form. *)
Inductive request :=
| GET
| POST (form_username form_password : string).

(** What a route answers: a redirect to an endpoint, or a template with
    its [error] argument. *)
Inductive response :=
| Redirect (endpoint : string)
| Render (template : string) (error : option string).

(** The id an insertion into [users] gets.  The column is declared
    AUTOINCREMENT, so the id is one more than the greatest id the table
    has had; no row is ever deleted, so this is the greatest id it has,
    and the first id is 1. *)
Definition next_id (m : gmap Z user_row) : Z :=
  1 + foldr Z.max 0 (map_to_list m).*1.

(** Whether a row of [users] has the name, which the UNIQUE constraint
    on the column asks at an insertion. *)
Definition username_taken (m : gmap Z user_row) (name : string) : bool :=
  bool_decide (name ∈ (λ row, username row.2) <$> map_to_list m).

(** [signup()].  The only failure of the insertion that is modelled is
    the violation of the UNIQUE constraint. *)
Definition signup (d : db) (req : request) : db * response :=
  match req with
  | POST u p =>
      if username_taken (users d) u
      then (d, Render "signup.html" (Some "Username exists"))
      else (Db (<[next_id (users d) := UserRow u p 0 0 None]> (users d))
               (chats d) (domains_used d),
            Redirect "login")
  | GET => (d, Render "signup.html" None)
  end.

(** [SELECT id FROM users WHERE username=? AND password=?] followed by
    [fetchone()]: the id of a row with the name and the password.  Which
    row is taken when several match is left to SQLite; here it is the
    first in the enumeration of the table. *)
Definition select_user_id (m : gmap Z user_row) (u p : string) : option Z :=
  (λ found, found.2.1) <$>
  list_find (λ row, username row.2 = u ∧ password row.2 = p) (map_to_list m).

(** The two keys the application keeps in the Flask session, absent
    together or present together: [user_id] and [username]. *)
Definition session := option (Z * string).

(** [login()] *)
Definition login (d : db) (s : session) (req : request)
  : session * response :=
  match req with
  | POST u p =>
      match select_user_id (users d) u p with
      | Some user => (Some (user, u), Redirect "home")
      | None => (s, Render "login.html" (Some "Invalid login"))
      end
  | GET => (s, Render "login.html" None)
  end.

(** No two rows of [users] have the same name. *)
Definition unique_usernames (d : db) : Prop :=
  ∀ i j ui uj, users d !! i = Some ui → users d !! j = Some uj →
               username ui = username uj → i = j.

(** * db_helper.py *)

(** The helpers of [db_helper.py] work on the same three tables, kept by
    a remote service.  Every call to the service either returns or
    raises; a helper is given, for each call it makes, whether the call
    returns ([true]) or raises ([false]). *)
Module DbHelper.

(** [get_user_stats(user_id)] *)
Definition get_user_stats (d : db) (ok : bool) (user_id : Z) : Z * Z :=
  if ok then
    match users d !! user_id with
    | Some u => (xp u, streak u)
    | None => (0, 0)
    end
  else (0, 0).

(** [get_user_last_visit(user_id)] *)
Definition get_user_last_visit (d : db) (ok : bool) (user_id : Z)
  : option Z :=
  if ok then users d !! user_id ≫= last_visit else None.

(** [check_domain_usage(user_id, domain)] *)
Definition check_domain_usage (d : db) (ok : bool) (user_id : Z)
    (domain : string) : bool :=
  if ok then domain_used (domains_used d) user_id domain else false.

(** [mark_domain_used(user_id, domain)] *)
Definition mark_domain_used (d : db) (ok : bool) (user_id : Z)
    (domain : string) : db * bool :=
  if ok then
    (Db (users d) (chats d) (domains_used d ++ [(user_id, domain)]), true)
  else (d, false).

(** [update_user_xp_streak(user_id, xp_gained, new_streak)] on the day
    [today]: a select, then an update of the rows with the id, of which
    there is one or none. *)
Definition update_user_xp_streak (d : db) (today : Z)
    (ok_select ok_update : bool) (user_id xp_gained new_streak : Z)
  : db * (Z * Z) :=
  if ok_select then
    let current_xp :=
      match users d !! user_id with
      | Some u => xp u
      | None => 0
      end in
    if ok_update then
      (Db match users d !! user_id with
          | Some u =>
              <[user_id := UserRow (username u) (password u)
                             (current_xp + xp_gained) new_streak
                             (Some today)]> (users d)
          | None => users d
          end (chats d) (domains_used d),
       (current_xp + xp_gained, new_streak))
    else (d, (0, 0))
  else (d, (0, 0)).

End DbHelper.

(** * Properties *)

(** ** Strings *)

Module StrFacts.
Import Str.

Lemma app_nil_l (s : string) : EmptyString +:+ s = s.
Proof. reflexivity. Qed.

Lemma app_cons (c : ascii) (s t : string) :
  String c s +:+ t = String c (s +:+ t).
Proof. reflexivity. Qed.

Lemma startswith_spec (s p : string) :
  startswith s p = true ↔ ∃ post, s = p +:+ post.
Proof.
  revert s. induction p as [|a p IH]; intros s; simpl.
  - split; [intros _; exists s; reflexivity | reflexivity].
  - destruct s as [|b s].
    + split; [done | intros [post Hpost]; discriminate Hpost].
    + rewrite andb_true_iff, Ascii.eqb_eq, IH. split.
      * intros [-> [post ->]]. exists post; reflexivity.
      * intros [post Hpost]. rewrite app_cons in Hpost.
        injection Hpost as -> ->. eauto.
Qed.

(** The scan [contains] finds exactly the occurrences. *)
Lemma contains_spec (x t : string) :
  contains x t = true ↔ occurs_in x t.
Proof.
  unfold occurs_in. induction t as [|c t IH]; simpl.
  - rewrite orb_false_r, startswith_spec. split.
    + intros [post Hpost]. exists EmptyString, post. exact Hpost.
    + intros [[|a pre] [post Hpost]].
      * exists post. exact Hpost.
      * discriminate Hpost.
  - rewrite orb_true_iff, IH, startswith_spec. split.
    + intros [[post Hpost] | (pre & post & ->)].
      * exists EmptyString, post. exact Hpost.
      * exists (String c pre), post. reflexivity.
    + intros [[|a pre] [post Hpost]].
      * left. exists post. exact Hpost.
      * right. rewrite app_cons in Hpost. injection Hpost as -> ->. eauto.
Qed.

Lemma lower_char_idemp (c : ascii) : lower_char (lower_char c) = lower_char c.
Proof. by destruct c as [[] [] [] [] [] [] [] []]. Qed.

(** Lower-casing twice is lower-casing once. *)
Lemma lower_idemp (s : string) : lower (lower s) = lower s.
Proof.
  induction s as [|c s IH]; simpl; [done|].
  by rewrite lower_char_idemp, IH.
Qed.

Lemma lower_app (s t : string) : lower (s +:+ t) = lower s +:+ lower t.
Proof.
  induction s as [|c s IH]; [done|].
  rewrite app_cons. simpl. by rewrite IH, app_cons.
Qed.

Lemma any_in_spec (t : string) (xs : list string) :
  any_in t xs = true ↔ ∃ x, x ∈ xs ∧ contains x t = true.
Proof.
  unfold any_in. rewrite existsb_exists.
  split; intros (x & Hx & Hc); exists x; split; try done;
    by apply list_elem_of_In.
Qed.

End StrFacts.

(** ** Part-type lookup *)

Section FirstMatch.
Import Str.

Lemma first_match_Some (n : string) (rules : list (list string * string))
    (ty : string) :
  first_match n rules = Some ty ↔
  ∃ (i : nat) ms, rules !! i = Some (ms, ty) ∧ any_in n ms = true ∧
    ∀ (j : nat) ms' ty', (j < i)%nat → rules !! j = Some (ms', ty') →
      any_in n ms' = false.
Proof.
  induction rules as [|[ms0 ty0] rules IH]; simpl.
  - split; [done | by intros (i & ms & ? & _)].
  - destruct (any_in n ms0) eqn:Hm.
    + split.
      * intros [= ->]. exists 0%nat, ms0. repeat split; [done|]. lia.
      * intros ([|i] & ms & Hi & Hms & Hlt); simpl in Hi.
        -- by injection Hi as -> ->.
        -- specialize (Hlt 0%nat ms0 ty0). simpl in Hlt.
           rewrite Hlt in Hm; [done | lia | done].
    + rewrite IH. split.
      * intros (i & ms & Hi & Hms & Hlt). exists (S i), ms.
        repeat split; [done..|].
        intros [|j] ms' ty' Hj Hl; simpl in Hl.
        -- by injection Hl as <- <-.
        -- apply (Hlt j ms' ty'); [lia | done].
      * intros ([|i] & ms & Hi & Hms & Hlt); simpl in Hi.
        -- injection Hi as -> ->. congruence.
        -- exists i, ms. repeat split; [done..|].
           intros j ms' ty' Hj Hl. apply (Hlt (S j) ms' ty'); [lia | done].
Qed.

Lemma first_match_None (n : string) (rules : list (list string * string)) :
  first_match n rules = None ↔
  ∀ ms ty, (ms, ty) ∈ rules → any_in n ms = false.
Proof.
  induction rules as [|[ms0 ty0] rules IH]; simpl.
  - split; [intros _ ms ty Hin; inversion Hin | done].
  - destruct (any_in n ms0) eqn:Hm.
    + split; [done|]. intros H. rewrite (H ms0 ty0) in Hm; [done|].
      apply list_elem_of_here.
    + rewrite IH. split.
      * intros H ms ty [[= -> ->] | Hin]%elem_of_cons; eauto.
      * intros H ms ty Hin. apply (H ms ty). by apply list_elem_of_further.
Qed.

End FirstMatch.

Lemma component_to_wokwi_part_first_match (name : string) :
  component_to_wokwi_part name = first_match (Str.lower name) part_rules.
Proof.
  unfold component_to_wokwi_part, part_rules, first_match, Str.any_in, existsb.
  rewrite !orb_false_r. reflexivity.
Qed.

(** C6. The part-type lookup is first-matching-rule-wins over the rules
    dht, ultrasonic|hc-sr04, lcd, oled, relay, servo, led, buzzer, gas|mq,
    each a substring test on the lower-cased name: it returns the part of
    a rule exactly when one of that rule's markers occurs in the
    lower-cased name and no marker of an earlier rule does, and it returns
    no part exactly when no marker of any rule occurs.  Names that agree
    after lower-casing get the same answer.  A name in which "oled" occurs
    is never mapped to the LED (it is mapped to the SSD1306 unless one of
    the three rules before oled matches).  "Ultrasonic HC-SR04" is mapped
    to the HC-SR04 part and "unknown-thing" to no part. *)
Theorem component_to_wokwi_part_priority (name : string) :
  let n := Str.lower name in
  component_to_wokwi_part name = first_match n part_rules ∧
  (∀ ty, component_to_wokwi_part name = Some ty ↔
     ∃ (i : nat) ms, part_rules !! i = Some (ms, ty) ∧
       (∃ m, m ∈ ms ∧ Str.contains m n = true) ∧
       ∀ (j : nat) ms' ty', (j < i)%nat → part_rules !! j = Some (ms', ty') →
         ∀ m', m' ∈ ms' → Str.contains m' n = false) ∧
  (component_to_wokwi_part name = None ↔
     ∀ ms ty m, (ms, ty) ∈ part_rules → m ∈ ms → Str.contains m n = false) ∧
  (∀ name', Str.lower name' = n →
     component_to_wokwi_part name' = component_to_wokwi_part name) ∧
  component_to_wokwi_part n = component_to_wokwi_part name ∧
  (Str.contains "oled" n = true →
     component_to_wokwi_part name ≠ Some "wokwi-led" ∧
     (Str.contains "dht" n = false → Str.contains "ultrasonic" n = false →
      Str.contains "hc-sr04" n = false → Str.contains "lcd" n = false →
      component_to_wokwi_part name = Some "wokwi-ssd1306")) ∧
  component_to_wokwi_part "Ultrasonic HC-SR04" = Some "wokwi-hc-sr04" ∧
  component_to_wokwi_part "unknown-thing" = None.
Proof.
  intros n.
  assert (Hno : ∀ ms, Str.any_in n ms = false ↔
                      ∀ m, m ∈ ms → Str.contains m n = false).
  { intros ms. rewrite <-not_true_iff_false, StrFacts.any_in_spec. split.
    - intros H m Hm. apply not_true_iff_false. intros Hc. apply H; eauto.
    - intros H (m & Hm & Hc). rewrite (H m Hm) in Hc. done. }
  split; [apply component_to_wokwi_part_first_match|].
  split.
  { intros ty. rewrite component_to_wokwi_part_first_match, first_match_Some.
    fold n. split; intros (i & ms & Hi & Hms & Hlt); exists i, ms;
      (split; [done|]); split.
    - by apply StrFacts.any_in_spec.
    - intros j ms' ty' Hj Hl. apply Hno. eauto.
    - by apply StrFacts.any_in_spec.
    - intros j ms' ty' Hj Hl. apply Hno. eauto. }
  split.
  { rewrite component_to_wokwi_part_first_match, first_match_None. fold n.
    split.
    - intros H ms ty m Hin. apply Hno. eauto.
    - intros H ms ty Hin. apply Hno. eauto. }
  split.
  { intros name' Heq. unfold component_to_wokwi_part. by rewrite Heq. }
  split.
  { unfold component_to_wokwi_part. subst n.
    by rewrite StrFacts.lower_idemp. }
  split; [|split; reflexivity].
  intros Holed. unfold component_to_wokwi_part. fold n. rewrite Holed.
  split.
  - by repeat case_match.
  - by intros -> -> -> ->.
Qed.

(** ** Domain classifier *)

Lemma domain_markers_tag (tag m : string) :
  m ∈ domain_markers tag →
  tag = "sensor" ∨ tag = "display" ∨ tag = "cloud" ∨ tag = "actuator".
Proof.
  unfold domain_markers. repeat case_decide; auto.
  by intros ?%elem_of_nil.
Qed.

(** One turn of the loop adds a tag exactly when one of the tag's markers
    occurs in the lower-cased component. *)
Lemma detect_step_elem (domains : gset string) (c tag : string) :
  tag ∈ detect_step domains c ↔
  tag ∈ domains ∨ Str.any_in (Str.lower c) (domain_markers tag) = true.
Proof.
  unfold detect_step. cbv zeta. split.
  - intros Hin.
    repeat match type of Hin with
    | context [if ?b then _ else _] => destruct b eqn:?
    end;
    repeat match type of Hin with
    | _ ∈ _ ∪ _ => apply elem_of_union in Hin as [Hin | Hin]
    | _ ∈ {[ _ ]} => apply elem_of_singleton in Hin as ->
    end; auto.
  - intros [Hin | Hany].
    + repeat case_match; set_solver.
    + assert (∃ m, m ∈ domain_markers tag) as [m Hm].
      { apply StrFacts.any_in_spec in Hany as (m & Hm & _). eauto. }
      apply domain_markers_tag in Hm as [-> | [-> | [-> | ->]]];
        vm_compute (domain_markers _) in Hany; rewrite Hany;
        repeat case_match; set_solver.
Qed.

Lemma detect_domains_set_elem (domains : gset string) (components : list string)
    (tag : string) :
  tag ∈ foldl detect_step domains components ↔
  tag ∈ domains ∨
  ∃ c, c ∈ components ∧ Str.any_in (Str.lower c) (domain_markers tag) = true.
Proof.
  revert domains. induction components as [|c cs IH]; intros domains; simpl.
  - split; [auto | intros [? | (c & []%elem_of_nil & _)]; done].
  - rewrite IH, detect_step_elem. split.
    + intros [[? | ?] | (c' & ? & ?)]; [by left | right..].
      * exists c. split; [apply list_elem_of_here | done].
      * exists c'. split; [by apply list_elem_of_further | done].
    + intros [? | (c' & [-> | ?]%elem_of_cons & ?)]; eauto.
Qed.

(** C4. A tag is in the result of the domain classifier exactly when one
    of the tag's markers occurs in some lower-cased component name; the
    result has no duplicates; permuting the components permutes the
    result at most; no component gives no tag; and the three components
    "DHT11 sensor", "LCD1602", "ESP32 Wifi" give sensor, display and
    cloud. *)
Theorem detect_domains_markers (components : list string) :
  (∀ tag, tag ∈ detect_domains components ↔
     ∃ c m, c ∈ components ∧ m ∈ domain_markers tag ∧
            Str.contains m (Str.lower c) = true) ∧
  NoDup (detect_domains components) ∧
  (∀ components', components ≡ₚ components' →
     detect_domains components ≡ₚ detect_domains components') ∧
  detect_domains [] = [] ∧
  detect_domains ["DHT11 sensor"; "LCD1602"; "ESP32 Wifi"]
    ≡ₚ ["sensor"; "display"; "cloud"].
Proof.
  assert (Hel : ∀ cs tag, tag ∈ detect_domains cs ↔
     ∃ c m, c ∈ cs ∧ m ∈ domain_markers tag ∧
            Str.contains m (Str.lower c) = true).
  { intros cs tag. unfold detect_domains, detect_domains_set.
    rewrite elem_of_elements, detect_domains_set_elem. split.
    - intros [[]%elem_of_empty | (c & Hc & Hany)].
      apply StrFacts.any_in_spec in Hany as (m & Hm & Hcon). eauto.
    - intros (c & m & Hc & Hm & Hcon). right. exists c. split; [done|].
      apply StrFacts.any_in_spec. eauto. }
  split; [apply Hel|].
  split; [unfold detect_domains; apply NoDup_elements|].
  split.
  { intros components' Hperm.
    apply NoDup_Permutation; [unfold detect_domains; apply NoDup_elements..|].
    intros tag. rewrite !Hel.
    split; intros (c & m & Hc & H); exists c, m; split; try done.
    - by rewrite <-Hperm.
    - by rewrite Hperm. }
  split; [reflexivity|].
  apply NoDup_Permutation.
  - unfold detect_domains. apply NoDup_elements.
  - apply (bool_decide_unpack _). by vm_compute.
  - intros tag.
    change (detect_domains _) with
      ltac:(let t := eval vm_compute in
              (detect_domains ["DHT11 sensor"; "LCD1602"; "ESP32 Wifi"])
            in exact t).
    rewrite !elem_of_cons, !elem_of_nil. tauto.
Qed.

(** ** Scene generator *)

Lemma component_to_wokwi_part_truthy (c ty : string) :
  component_to_wokwi_part c = Some ty → truthy (Some ty) = true.
Proof.
  unfold component_to_wokwi_part.
  repeat case_match; by intros [= <-].
Qed.

Lemma grid_next (k : nat) :
  if grid_left k + 120 >? 180
  then grid_left (S k) = -180 ∧ grid_top (S k) = grid_top k + 120
  else grid_left (S k) = grid_left k + 120 ∧ grid_top (S k) = grid_top k.
Proof.
  unfold grid_left, grid_top. rewrite Nat2Z.inj_succ.
  generalize (Z.of_nat k) (Nat2Z.is_nonneg k). intros z Hz.
  destruct (Z.gtb_spec (-180 + 120 * (z `mod` 4) + 120) 180);
    Z.div_mod_to_equations; lia.
Qed.

(** One turn of the layout loop from the [k]-th grid cell. *)
Lemma place_grid (ps : list part) (k : nat) (c : string) :
  place (Layout ps (grid_left k) (grid_top k) (Z.of_nat k)) c =
  match component_to_wokwi_part c with
  | Some ty => Layout (ps ++ [placed k ty]) (grid_left (S k)) (grid_top (S k))
                 (Z.of_nat (S k))
  | None => Layout ps (grid_left k) (grid_top k) (Z.of_nat k)
  end.
Proof.
  unfold place. destruct (component_to_wokwi_part c) as [ty|] eqn:Hc; [|done].
  rewrite (component_to_wokwi_part_truthy c ty Hc). simpl.
  pose proof (grid_next k) as Hn. rewrite Nat2Z.inj_succ.
  destruct (grid_left k + 120 >? 180); destruct Hn as [-> ->];
    unfold placed, part_name; f_equal; lia.
Qed.

(** The whole loop, from the [k]-th grid cell. *)
Lemma place_loop (components : list string) (ps : list part) (k : nat) :
  l_parts (foldl place (Layout ps (grid_left k) (grid_top k) (Z.of_nat k))
             components) =
  ps ++ imap (λ i, placed (k + i)) (resolved components).
Proof.
  revert ps k. induction components as [|c cs IH]; intros ps k; simpl.
  - by rewrite app_nil_r.
  - rewrite place_grid. unfold resolved. simpl.
    destruct (component_to_wokwi_part c) as [ty|]; simpl.
    + rewrite IH, <-app_assoc. simpl. rewrite Nat.add_0_r.
      do 2 f_equal. apply imap_ext. intros i x _. simpl. f_equal. lia.
    + apply IH.
Qed.

(** The parts of a diagram: the board, then the resolvable components on
    the grid, in input order. *)
Lemma generate_wokwi_diagram_parts (mcu : string) (components : list string) :
  parts (generate_wokwi_diagram mcu components) =
  board_part (select_family mcu) :: imap placed (resolved components).
Proof.
  unfold generate_wokwi_diagram, select_family, board_part. simpl.
  rewrite (place_loop components _ 0).
  by repeat case_match.
Qed.

Lemma resolved_length (components : list string) :
  length (resolved components) =
  length (filter (λ c, is_Some (component_to_wokwi_part c)) components).
Proof.
  unfold resolved. induction components as [|c cs IH]; [done|].
  rewrite filter_cons. simpl.
  destruct (component_to_wokwi_part c) as [ty|]; simpl.
  - f_equal. exact IH.
  - exact IH.
Qed.

Global Instance part_name_inj : Inj (=) (=) part_name.
Proof.
  intros i j Hij. unfold part_name in Hij.
  injection Hij as Hij. apply pretty_Z_inj in Hij. lia.
Qed.

Lemma imap_placed_lookup (tys : list string) (i : nat) (p : part) :
  imap placed tys !! i = Some p ↔ ∃ ty, tys !! i = Some ty ∧ p = placed i ty.
Proof.
  rewrite list_lookup_imap. destruct (tys !! i) as [ty|]; simpl.
  - split; [intros [= <-]; eauto | by intros (? & [= <-] & ->)].
  - split; [done | by intros (? & ? & _)].
Qed.

(** C5, as amended.  The board is the first part, at top 0 and left 0.
    The resolvable components follow in input order: the first at left
    -180 and top 140, and each next one 120 further right
    on the same row, unless that would pass 180, in which case it is at
    left -180 on a row 120 further down.  With five resolvable components
    there are five parts besides the board: four on the row at top 140,
    at left -180, -60, 60 and 180, and the fifth at left -180 and top
    260. *)
Theorem scene_layout (mcu : string) (components : list string) :
  let ps := parts (generate_wokwi_diagram mcu components) in
  (∃ board, ps !! 0%nat = Some (Part "mcu" board 0 0)) ∧
  part_type <$> tail ps = resolved components ∧
  (∀ p, ps !! 1%nat = Some p → part_left p = -180 ∧ part_top p = 140) ∧
  (∀ (i : nat) p q, ps !! S i = Some p → ps !! S (S i) = Some q →
     if part_left p + 120 >? 180
     then part_left q = -180 ∧ part_top q = part_top p + 120
     else part_left q = part_left p + 120 ∧ part_top q = part_top p) ∧
  (length (resolved components) = 5%nat →
     length ps = 6%nat ∧
     (λ p, (part_left p, part_top p)) <$> tail ps =
       [(-180, 140); (-60, 140); (60, 140); (180, 140); (-180, 260)]).
Proof.
  intros ps. subst ps. rewrite generate_wokwi_diagram_parts. simpl.
  split; [by destruct (select_family mcu); eexists|].
  split.
  { rewrite fmap_imap. generalize (resolved components). intros tys.
    apply list_eq. intros i. rewrite list_lookup_imap.
    by destruct (tys !! i). }
  split.
  { intros p (ty & _ & ->)%imap_placed_lookup. done. }
  split.
  { intros i p q (ty & _ & ->)%imap_placed_lookup
                 (ty' & _ & ->)%imap_placed_lookup.
    simpl. apply grid_next. }
  intros Hlen. rewrite length_imap, Hlen. split; [done|].
  destruct (resolved components) as [|? [|? [|? [|? [|? [|? ?]]]]]];
    try discriminate Hlen. reflexivity.
Qed.

Lemma scene_layout_five :
  let ps := parts (generate_wokwi_diagram "Arduino Uno" five_components) in
  length ps = 6%nat ∧
  (λ p, (part_left p, part_top p)) <$> tail ps =
    [(-180, 140); (-60, 140); (60, 140); (180, 140); (-180, 260)].
Proof.
  apply (scene_layout "Arduino Uno" five_components). reflexivity.
Defined.

(** With five resolvable components the fourth part besides the board is
    at left 180 on the first row: it is the fifth whose left is back at
    -180 and whose top is 120 further down. *)
Lemma fourth_part_not_wrapped :
  let ps := parts (generate_wokwi_diagram "Arduino Uno" five_components) in
  length (resolved five_components) = 5%nat ∧
  ∃ p4, tail ps !! 3%nat = Some p4 ∧
        part_left p4 = 180 ∧ part_top p4 = 140 ∧
        ¬ (part_left p4 = -180 ∧ part_top p4 = 140 + 120).
Proof.
  split; [reflexivity|].
  eexists. split; [reflexivity|]. simpl. repeat split. by intros [? _].
Qed.

(** ** Board and simulator link *)

(** C7. The simulator URL and the board part type are chosen by one rule
    on the lower-cased microcontroller name, esp32 first, else esp8266,
    else the Arduino default: the URL and the board are of the same
    family, the URL is one of three fixed strings, and names that agree
    after lower-casing get the same URL and the same board. *)
Theorem board_and_link_agree (mcu : string) (components : list string) :
  let url := get_wokwi_link mcu in
  let board := part_type <$> head (parts (generate_wokwi_diagram mcu components)) in
  match select_family mcu with
  | ESP32 => url = "https://wokwi.com/projects/new/esp32" ∧
             board = Some "wokwi-esp32-devkit-v1"
  | ESP8266 => url = "https://wokwi.com/projects/new/esp8266" ∧
               board = Some "wokwi-esp8266"
  | ArduinoUno => url = "https://wokwi.com/projects/new/arduino-uno" ∧
                  board = Some "wokwi-arduino-uno"
  end ∧
  url_family url = Some (select_family mcu) ∧
  board ≫= board_family = Some (select_family mcu) ∧
  url ∈ ["https://wokwi.com/projects/new/esp32";
         "https://wokwi.com/projects/new/esp8266";
         "https://wokwi.com/projects/new/arduino-uno"] ∧
  (∀ mcu' components', Str.lower mcu' = Str.lower mcu →
     get_wokwi_link mcu' = url ∧
     part_type <$> head (parts (generate_wokwi_diagram mcu' components'))
       = board).
Proof.
  intros url board. subst url board.
  assert (Hboard : ∀ m cs,
    part_type <$> head (parts (generate_wokwi_diagram m cs)) =
    Some (part_type (board_part (select_family m)))).
  { intros m cs. by rewrite generate_wokwi_diagram_parts. }
  assert (Hurl : ∀ m, get_wokwi_link m =
    match select_family m with
    | ESP32 => "https://wokwi.com/projects/new/esp32"
    | ESP8266 => "https://wokwi.com/projects/new/esp8266"
    | ArduinoUno => "https://wokwi.com/projects/new/arduino-uno"
    end).
  { intros m. unfold get_wokwi_link, select_family. by repeat case_match. }
  assert (Hfam : ∀ mcu', Str.lower mcu' = Str.lower mcu →
                         select_family mcu' = select_family mcu).
  { intros mcu' Heq. unfold select_family. by rewrite Heq. }
  rewrite Hboard, Hurl.
  split; [by destruct (select_family mcu)|].
  split; [by destruct (select_family mcu)|].
  split; [by destruct (select_family mcu)|].
  split.
  { destruct (select_family mcu); rewrite !elem_of_cons; auto. }
  intros mcu' components' Heq.
  by rewrite Hboard, Hurl, (Hfam mcu' Heq).
Qed.

(** ** Identifiers of the parts *)

(** C10. The identifiers of the parts of a diagram are "mcu", then "p0",
    "p1", ... in placement order, and are pairwise distinct; there are as
    many parts besides the board as there are components that resolve to
    a part type, so that without any the board is the only part; and the
    connections list is empty. *)
Theorem diagram_parts_ids (mcu : string) (components : list string) :
  let dg := generate_wokwi_diagram mcu components in
  let n := length (filter (λ c, is_Some (component_to_wokwi_part c))
                     components) in
  part_id <$> parts dg = "mcu" :: (part_name <$> seq 0 n) ∧
  NoDup (part_id <$> parts dg) ∧
  length (tail (parts dg)) = n ∧
  part_type <$> tail (parts dg) = omap component_to_wokwi_part components ∧
  (n = 0%nat → ∃ board, parts dg = [Part "mcu" board 0 0]) ∧
  connections dg = [].
Proof.
  intros dg n. subst dg n. rewrite <-resolved_length.
  rewrite generate_wokwi_diagram_parts, fmap_cons. cbn [tail].
  assert (Hids : part_id <$> imap placed (resolved components) =
                 part_name <$> seq 0 (length (resolved components))).
  { rewrite fmap_imap. generalize (resolved components). intros tys.
    apply list_eq. intros i. rewrite list_lookup_imap, list_lookup_fmap.
    destruct (tys !! i) as [ty|] eqn:Hi; simpl.
    - rewrite lookup_seq_lt by (by eapply lookup_lt_Some). done.
    - rewrite lookup_seq_ge by (by apply lookup_ge_None). done. }
  split; [by rewrite Hids; destruct (select_family mcu)|].
  split.
  { rewrite Hids. apply NoDup_cons. split.
    - intros (i & Hi & _)%list_elem_of_fmap. discriminate Hi.
    - apply NoDup_fmap_2; [apply _ | apply NoDup_seq]. }
  split; [apply length_imap|].
  split.
  { rewrite fmap_imap. fold (resolved components).
    generalize (resolved components). intros tys.
    apply list_eq. intros i. rewrite list_lookup_imap.
    by destruct (tys !! i). }
  split; [|done].
  intros Hn. destruct (resolved components); [|done].
  by destruct (select_family mcu); eexists.
Qed.

(** ** Progression engine *)

Section Award.
Variable user_id : Z.

Lemma award_gain_le (domains : list string) (rows : list (Z * string))
    (g : Z) :
  g ≤ (foldl (award user_id) (rows, g) domains).2.
Proof.
  revert rows g. induction domains as [|d ds IH]; intros rows g; simpl.
  - lia.
  - destruct (domain_used rows user_id d).
    + etrans; [|apply IH]. lia.
    + etrans; [|apply IH]. lia.
Qed.

Lemma domain_used_snoc (rows : list (Z * string)) (d d' : string) :
  domain_used (rows ++ [(user_id, d)]) user_id d' =
  domain_used rows user_id d' || bool_decide (d' = d).
Proof.
  unfold domain_used. apply eq_true_iff_eq.
  rewrite orb_true_iff, !bool_decide_eq_true, elem_of_app,
    list_elem_of_singleton.
  split; (intros [? | ?]; [by left | right]); congruence.
Qed.

(** The loop over distinct domains: each is awarded against the records
    as they were before the loop, and has a record after it. *)
Lemma award_loop (domains : list string) (rows : list (Z * string))
    (g : Z) :
  NoDup domains →
  ∃ rows', foldl (award user_id) (rows, g) domains =
             (rows', g + sumZ (domain_award rows user_id <$> domains)) ∧
           ∀ d, domain_used rows' user_id d =
                domain_used rows user_id d || bool_decide (d ∈ domains).
Proof.
  revert rows g. induction domains as [|d ds IH]; intros rows g Hnd.
  - exists rows. split; [simpl; f_equal; lia|].
    intros d. rewrite bool_decide_eq_false_2 by apply not_elem_of_nil.
    by rewrite orb_false_r.
  - apply NoDup_cons in Hnd as [Hd Hnd].
    rewrite fmap_cons.
    change (foldl (award user_id) (rows, g) (d :: ds))
      with (foldl (award user_id) (award user_id (rows, g) d) ds).
    change (sumZ (?x :: ?l)) with (x + sumZ l).
    assert (Hsame : ∀ rows1, (∀ d', d' ∈ ds →
               domain_used rows1 user_id d' = domain_used rows user_id d') →
             sumZ (domain_award rows1 user_id <$> ds) =
             sumZ (domain_award rows user_id <$> ds)).
    { intros rows1 Hrows. f_equal. apply list_fmap_ext.
      intros i d' Hi. unfold domain_award.
      rewrite Hrows; [done|]. by eapply list_elem_of_lookup_2. }
    change (award user_id (rows, g) d)
      with (if domain_used rows user_id d then (rows, g + 5)
            else (rows ++ [(user_id, d)], g + 30)).
    unfold domain_award at 1.
    destruct (domain_used rows user_id d) eqn:Hused.
    + destruct (IH rows (g + 5) Hnd) as (rows' & -> & Hrows').
      exists rows'. split; [f_equal; lia|].
      intros d'. rewrite Hrows'. destruct (decide (d' = d)) as [->|Hne].
      * rewrite Hused. done.
      * f_equal. apply bool_decide_ext. rewrite elem_of_cons. tauto.
    + destruct (IH (rows ++ [(user_id, d)]) (g + 30) Hnd)
        as (rows' & -> & Hrows').
      exists rows'. split.
      * rewrite Hsame; [f_equal; lia|].
        intros d' Hd'. rewrite domain_used_snoc.
        rewrite (bool_decide_eq_false_2 (d' = d)) by congruence.
        by rewrite orb_false_r.
      * intros d'. rewrite Hrows', domain_used_snoc, <-orb_assoc. f_equal.
        apply eq_true_iff_eq.
        rewrite orb_true_iff, !bool_decide_eq_true, elem_of_cons. done.
Qed.

Lemma sumZ_const (k : Z) (f : string → Z) (l : list string) :
  (∀ d, d ∈ l → f d = k) → sumZ (f <$> l) = k * Z.of_nat (length l).
Proof.
  induction l as [|d l IH]; intros Hf; [simpl; lia|].
  rewrite fmap_cons. change (sumZ (?x :: ?l)) with (x + sumZ l).
  rewrite Hf by apply list_elem_of_here.
  rewrite IH; [cbn [length]; lia|].
  intros d' Hd'. apply Hf. by apply list_elem_of_further.
Qed.

End Award.

Lemma flat_bonus_perm (l k : list string) : l ≡ₚ k → flat_bonus l = flat_bonus k.
Proof.
  intros Hperm. unfold flat_bonus.
  by rewrite !(bool_decide_ext (_ ∈ l) (_ ∈ k)) by (by rewrite Hperm).
Qed.

(** What a call returns and commits when the user has a row, with the
    loop left as it is. *)
Lemma update_xp_and_streak_Some (d : db) (today user_id : Z)
    (domains : list string) (u : user_row) :
  users d !! user_id = Some u →
  let s' := match last_visit u with
            | Some last =>
                if today - last =? 1 then streak u + 1
                else if today - last >? 1 then 1
                else streak u
            | None => 1
            end in
  let loop := foldl (award user_id) (domains_used d, 0) domains in
  let g := loop.2 + flat_bonus domains in
  update_xp_and_streak d today user_id domains =
  Some (Db (<[user_id := UserRow (username u) (password u) (xp u + g) s'
                           (Some today)]> (users d))
           (chats d) loop.1,
        (xp u + g, s', g)).
Proof.
  intros Hu. unfold update_xp_and_streak. rewrite Hu. cbv zeta.
  destruct (foldl (award user_id) (domains_used d, 0) domains) as [rows g0].
  cbn [fst snd].
  match goal with
  | |- Some (_, (xp u + ?a, _, _)) = _ =>
      assert (Ha : a = g0 + flat_bonus domains)
        by (unfold flat_bonus; repeat case_bool_decide; lia);
      rewrite Ha
  end.
  reflexivity.
Qed.

(** A call for a user with a row and distinct domains: the gain is the
    specification's, the new XP is the old plus the gain, and afterwards
    the user has a usage record for each detected domain besides the old
    records. *)
Lemma update_xp_and_streak_gain (d : db) (today user_id : Z)
    (domains : list string) (u : user_row) :
  NoDup domains → users d !! user_id = Some u →
  let gain := xp_gain (domains_used d) user_id domains in
  ∃ d' u',
    update_xp_and_streak d today user_id domains =
      Some (d', (xp u + gain, streak u', gain)) ∧
    users d' !! user_id = Some u' ∧ xp u' = xp u + gain ∧
    ∀ dm, domain_used (domains_used d') user_id dm =
          domain_used (domains_used d) user_id dm || bool_decide (dm ∈ domains).
Proof.
  intros Hnd Hu gain.
  rewrite (update_xp_and_streak_Some d today user_id domains u Hu).
  destruct (award_loop user_id domains (domains_used d) 0 Hnd)
    as (rows' & Hloop & Hrows').
  rewrite Hloop. cbn [fst snd]. rewrite Z.add_0_l. fold (xp_gain (domains_used d) user_id domains).
  fold gain.
  match goal with
  | |- context [Some (?D, _)] =>
      match D with context [<[_ := ?U]> _] => exists D, U end
  end.
  split; [done|]. split; [apply lookup_insert_eq | done].
Qed.

(** C1. For a user with a row and a duplicate-free list of detected
    domains, the gain returned is the sum over the domains of 5 for a
    domain the user has a usage record for and 30 for one without, plus
    30 if cloud, 20 if display and 20 if actuator is detected; the XP
    returned and stored is the old XP plus the gain; and every detected
    domain has a usage record afterwards.  Detecting cloud, display and
    actuator for a user with a record for none of them gains 160, and
    detecting the three again gains 85. *)
Theorem xp_gained_by_domains (d : db) (today user_id : Z)
    (domains : list string) (u : user_row) :
  NoDup domains → users d !! user_id = Some u →
  let gain := xp_gain (domains_used d) user_id domains in
  ∃ d' streak',
    update_xp_and_streak d today user_id domains =
      Some (d', (xp u + gain, streak', gain)) ∧
    xp <$> users d' !! user_id = Some (xp u + gain) ∧
    (∀ dm, domain_used (domains_used d') user_id dm =
           domain_used (domains_used d) user_id dm ||
           bool_decide (dm ∈ domains)) ∧
    (domains ≡ₚ ["cloud"; "display"; "actuator"] →
     (∀ dm, dm ∈ domains → domain_used (domains_used d) user_id dm = false) →
     gain = 160 ∧
     ∀ today2 domains2, domains2 ≡ₚ domains →
       ∃ d'' streak'',
         update_xp_and_streak d' today2 user_id domains2 =
           Some (d'', (xp u + 160 + 85, streak'', 85))).
Proof.
  intros Hnd Hu gain.
  destruct (update_xp_and_streak_gain d today user_id domains u Hnd Hu)
    as (d' & u' & Hupd & Hu' & Hxp & Hrows).
  fold gain in Hupd, Hxp. exists d', (streak u').
  split; [done|]. split; [by rewrite Hu', <-Hxp|]. split; [done|].
  intros Hperm Hnew.
  assert (Hbonus : ∀ l, l ≡ₚ domains → flat_bonus l = 70).
  { intros l Hl. by rewrite (flat_bonus_perm l _ (transitivity Hl Hperm)). }
  assert (Hlen : ∀ l, l ≡ₚ domains → length l = 3%nat).
  { intros l Hl. by rewrite Hl, Hperm. }
  assert (Hgain : gain = 160).
  { unfold gain, xp_gain.
    rewrite (sumZ_const 30).
    - by rewrite Hbonus, Hlen.
    - intros dm Hdm. unfold domain_award. by rewrite Hnew. }
  split; [done|]. intros today2 domains2 Hperm2.
  assert (Hnd2 : NoDup domains2) by (by rewrite Hperm2).
  destruct (update_xp_and_streak_gain d' today2 user_id domains2 u' Hnd2 Hu')
    as (d'' & u'' & Hupd2 & _).
  exists d'', (streak u'').
  replace (xp_gain (domains_used d') user_id domains2) with 85 in Hupd2.
  { by rewrite Hupd2, Hxp, Hgain. }
  unfold xp_gain. rewrite (sumZ_const 5); [by rewrite Hbonus, Hlen|].
  intros dm Hdm. unfold domain_award. rewrite Hrows.
  rewrite (bool_decide_eq_true_2 (dm ∈ domains)) by (by rewrite <-Hperm2).
  by rewrite orb_true_r.
Qed.

Lemma xp_gained_by_domains_new_user :
  ∃ d' streak',
    update_xp_and_streak db_new 100 7 ["cloud"; "display"; "actuator"] =
      Some (d', (160, streak', 160)) ∧
    ∃ d'' streak'',
      update_xp_and_streak d' 100 7 ["actuator"; "cloud"; "display"] =
        Some (d'', (245, streak'', 85)).
Proof.
  assert (Hnd : NoDup ["cloud"; "display"; "actuator"])
    by (apply (bool_decide_unpack _); vm_compute; exact I).
  assert (Hu : users db_new !! 7 = Some (UserRow "ann" "secret" 0 0 None))
    by reflexivity.
  destruct (xp_gained_by_domains db_new 100 7 ["cloud"; "display"; "actuator"]
              _ Hnd Hu) as (d' & streak' & Hupd & _ & _ & Hthree).
  exists d', streak'. split; [exact Hupd|].
  destruct Hthree as [_ Hagain]; [reflexivity | |].
  { intros dm _. reflexivity. }
  apply (Hagain 100 ["actuator"; "cloud"; "display"]).
  apply (Permutation_cons_append ["cloud"; "display"] "actuator").
Defined.

(** C2. For a user with a row: without a last visit the new streak is 1;
    with a last visit on the day before today it is the old streak plus
    1; with a last visit more than one day before today it is 1; with a
    last visit today it is the old streak.  The new streak is the one
    returned and stored, and today becomes the last visit. *)
Theorem streak_rule (d : db) (today user_id : Z) (domains : list string)
    (u : user_row) :
  users d !! user_id = Some u →
  ∃ d' xp' gained streak',
    update_xp_and_streak d today user_id domains =
      Some (d', (xp', streak', gained)) ∧
    streak <$> users d' !! user_id = Some streak' ∧
    last_visit <$> users d' !! user_id = Some (Some today) ∧
    (last_visit u = None → streak' = 1) ∧
    (last_visit u = Some (today - 1) → streak' = streak u + 1) ∧
    (∀ last, last_visit u = Some last → today - last > 1 → streak' = 1) ∧
    (last_visit u = Some today → streak' = streak u).
Proof.
  intros Hu.
  rewrite (update_xp_and_streak_Some d today user_id domains u Hu). cbv zeta.
  eexists _, _, _, _. split; [reflexivity|]. cbn [users].
  rewrite lookup_insert_eq. cbn.
  split; [done|]. split; [done|]. split; [by intros ->|].
  split.
  { intros ->. replace (today - (today - 1)) with 1 by lia. done. }
  split.
  { intros last -> Hgap.
    destruct (Z.eqb_spec (today - last) 1); [lia|].
    destruct (Z.gtb_spec (today - last) 1); [done | lia]. }
  intros ->. by rewrite Z.sub_diag.
Qed.

Lemma streak_rule_next_day :
  ∃ d' xp' gained,
    update_xp_and_streak db_seen 100 7 ["sensor"; "cloud"] =
      Some (d', (xp', 5, gained)) ∧
    streak <$> users d' !! 7 = Some 5.
Proof.
  destruct (streak_rule db_seen 100 7 ["sensor"; "cloud"]
              (UserRow "ann" "secret" 120 4 (Some 99)))
    as (d' & xp' & gained & streak' & Hupd & Hst & _ & _ & Hnext & _);
    [reflexivity|].
  rewrite (Hnext eq_refl) in Hupd, Hst.
  exists d', xp', gained. split; [exact Hupd | exact Hst].
Defined.

(** C3. For a user with a row, whatever the detected domains: the call
    returns, the gain is not negative, the XP stored afterwards is the XP
    returned and is at least the XP before, and the streak stored
    afterwards is 1, the streak before, or the streak before plus 1. *)
Theorem xp_never_decreases (d : db) (today user_id : Z)
    (domains : list string) (u : user_row) :
  users d !! user_id = Some u →
  ∃ d' u' gained,
    update_xp_and_streak d today user_id domains =
      Some (d', (xp u', streak u', gained)) ∧
    users d' !! user_id = Some u' ∧
    0 ≤ gained ∧ xp u' = xp u + gained ∧ xp u ≤ xp u' ∧
    (streak u' = 1 ∨ streak u' = streak u ∨ streak u' = streak u + 1).
Proof.
  intros Hu.
  rewrite (update_xp_and_streak_Some d today user_id domains u Hu). cbv zeta.
  match goal with
  | |- context [Some (?D, (_, _, ?g))] =>
      match D with context [<[_ := ?U]> _] => exists D, U, g end
  end.
  split; [done|]. split; [apply lookup_insert_eq|].
  cbn [xp streak].
  pose proof (award_gain_le user_id domains (domains_used d) 0) as Hle.
  assert (0 ≤ flat_bonus domains)
    by (unfold flat_bonus; repeat case_bool_decide; lia).
  split; [lia|]. split; [done|]. split; [lia|].
  destruct (last_visit u) as [last|]; [|by left].
  repeat case_match; auto.
Qed.

Lemma xp_never_decreases_seen :
  ∃ d' u' gained,
    update_xp_and_streak db_seen 103 7 ["sensor"; "actuator"] =
      Some (d', (xp u', streak u', gained)) ∧
    users d' !! 7 = Some u' ∧ 120 ≤ xp u'.
Proof.
  destruct (xp_never_decreases db_seen 103 7 ["sensor"; "actuator"]
              (UserRow "ann" "secret" 120 4 (Some 99)))
    as (d' & u' & gained & Hupd & Hu' & _ & _ & Hle & _); [reflexivity|].
  exists d', u', gained. repeat split; [exact Hupd | exact Hu' | exact Hle].
Defined.

(** ** Interaction handler *)

Section HandlerFacts.
Variable json_loads : string → option json.

(** The [try] block leaves the database alone when the design request
    raises or the document has no usable [components]. *)
Lemma home_try_no_design (d : db) (today user_id : Z)
    (project : option string) (r : reply) (vars : locals) :
  get_ai_design json_loads r = None ∨
  (∃ data, get_ai_design json_loads r = Some data ∧
           Py.getitem data "components" ≫= Py.str_items = None) →
  (home_try json_loads d today user_id project r vars).1 = d.
Proof.
  unfold home_try. intros [-> | (data & -> & ->)]; reflexivity.
Qed.

Lemma home_db (d : db) (today user_id : Z) (project : option string)
    (r : reply) (u : user_row) :
  users d !! user_id = Some u →
  (home json_loads d today user_id project r).1 =
  (home_try json_loads d today user_id project r
     (Locals None None None None (xp u) (streak u))).1.
Proof.
  intros Hu. unfold home. rewrite Hu.
  by destruct (home_try _ _ _ _ _ _ _).
Qed.

End HandlerFacts.

(** The failures that are a no-op.  When the call to the service raises,
    or the text it returns is not parseable, or the document has no
    field components, the handler leaves the whole database as it was:
    the XP, the streak and the last visit of the user, the usage records
    and the chats. *)
Theorem failed_design_is_noop (json_loads : string → option json) (d : db)
    (today user_id : Z) (project : option string) (r : reply) :
  r = None ∨ get_ai_design json_loads r = None ∨
  (∃ data, get_ai_design json_loads r = Some data ∧
           Py.getitem data "components" = None) →
  (home json_loads d today user_id project r).1 = d ∧
  user_state (home json_loads d today user_id project r).1 user_id =
    user_state d user_id.
Proof.
  intros Hfail.
  assert ((home json_loads d today user_id project r).1 = d) as ->;
    [|done].
  destruct (users d !! user_id) as [u|] eqn:Hu.
  - rewrite (home_db _ _ _ _ _ _ u Hu). apply home_try_no_design.
    destruct Hfail as [-> | [Hnone | (data & Hdata & Hcomp)]]; [by left..|].
    right. exists data. by rewrite Hcomp.
  - unfold home. by rewrite Hu.
Qed.

Lemma failed_design_is_noop_upstream_error :
  (home loads_components_only db_seen 100 7 (Some "weather station")
     None).1 = db_seen.
Proof.
  apply (failed_design_is_noop loads_components_only db_seen 100 7
           (Some "weather station") None).
  left. reflexivity.
Defined.

(** C9, at a document without the field microcontroller.  The design
    request has failed, a required field being missing, and the handler
    is to leave the XP, the streak, the last visit and the usage records
    of the user as they were.  It does not: the XP and the streak are
    committed before the field is read, so the user's row holds 30 XP, a
    streak of 1 and the day of the visit, and there is a usage record for
    the domain sensor; the chat is not stored, and building the arguments
    of the template raises. *)
Theorem missing_microcontroller_mutates :
  let result := home loads_components_only db_new 100 7
                  (Some "weather station") (Some components_only_text) in
  let d' := result.1 in
  design_failed loads_components_only (Some components_only_text) ∧
  users d' !! 7 = Some (UserRow "ann" "secret" 30 1 (Some 100)) ∧
  domains_used d' = [(7, "sensor")] ∧
  chats d' = [] ∧
  user_state d' 7 ≠ user_state db_new 7 ∧
  result.2 = None.
Proof.
  split.
  { right. right. exists components_only, "microcontroller".
    split; [reflexivity|]. split; [|reflexivity].
    apply (bool_decide_unpack _). by vm_compute. }
  by vm_compute.
Qed.

(** ** Fences around the reply *)

Module TextFacts.
Import Text.

Lemma app_assoc (s t r : string) : (s +:+ t) +:+ r = s +:+ t +:+ r.
Proof.
  induction s as [|c s IH]; [done|].
  rewrite !StrFacts.app_cons. by rewrite IH.
Qed.

(** Stripping on the right stops at the last character that is not a
    blank. *)
Lemma rstrip_app (s t : string) :
  rstrip t ≠ EmptyString → rstrip (s +:+ t) = s +:+ rstrip t.
Proof.
  intros Ht. induction s as [|c s IH]; [done|].
  rewrite !StrFacts.app_cons. simpl. rewrite IH.
  destruct (s +:+ rstrip t) as [|c' s'] eqn:Hs; [|done].
  destruct s; [|discriminate Hs]. by destruct Ht.
Qed.

Lemma contains_backquote_cons (c : ascii) (body : string) :
  Str.contains "`" (String c body) =
  Ascii.eqb "`" c || Str.contains "`" body.
Proof. cbn [Str.contains Str.startswith]. by rewrite andb_true_r. Qed.

(** A piece without a backquote, closed by a fence: the scan gives the
    piece and the empty rest. *)
Lemma split_go_fence (body cur : string) :
  Str.contains "`" body = false →
  split_go "```" 0 cur (body +:+ "```") = [cur +:+ body; EmptyString].
Proof.
  revert cur. induction body as [|c body IH]; intros cur Hbody.
  - simpl. f_equal. induction cur as [|a cur IHcur]; [done|].
    by rewrite StrFacts.app_cons, <-IHcur.
  - rewrite contains_backquote_cons in Hbody.
    apply orb_false_iff in Hbody as [Hc Hbody].
    rewrite StrFacts.app_cons.
    change (split_go "```" 0 cur (String c (body +:+ "```")))
      with (if Ascii.eqb "`" c &&
               Str.startswith (body +:+ "```") "``"
            then cur :: split_go "```" 2 EmptyString (body +:+ "```")
            else split_go "```" 0 (cur +:+ String c EmptyString)
                   (body +:+ "```")).
    rewrite Hc. cbn [andb]. rewrite (IH _ Hbody). f_equal.
    by rewrite app_assoc.
Qed.

End TextFacts.

(** A text in a bare fence, with no backquote inside: the text between
    the fences is what is handed to [json.loads]. *)
Lemma unfence_bare (body : string) :
  Str.contains "`" body = false →
  unfence ("```" +:+ body +:+ "```") = body.
Proof.
  intros Hbody. unfold unfence, Text.strip.
  change (Text.lstrip ("```" +:+ body +:+ "```"))
    with ("```" +:+ body +:+ "```").
  rewrite <-TextFacts.app_assoc, (TextFacts.rstrip_app _ "```") by done.
  change (Text.rstrip "```") with "```". rewrite TextFacts.app_assoc.
  change (Str.startswith ("```" +:+ body +:+ "```") "```") with true.
  cbv iota. unfold Text.split.
  change (Text.split_go "```" 0 EmptyString ("```" +:+ body +:+ "```"))
    with (EmptyString :: Text.split_go "```" 0 EmptyString (body +:+ "```")).
  by rewrite (TextFacts.split_go_fence body EmptyString Hbody).
Qed.

(** C8, at the design document in a fence tagged json.  The unfenced text
    is handed to [json.loads] as it is.  Of the fenced text only the
    fences are removed: [json.loads] is handed the tag, a line feed, the
    document and a line feed, a text that does not go on with the start
    of a value, where the document itself does. *)
Theorem fence_with_language_tag (json_loads : string → option json) :
  get_ai_design json_loads (Some design_text) = json_loads design_text ∧
  unfence design_text_fenced = "json" +:+ nl +:+ design_text +:+ nl ∧
  get_ai_design json_loads (Some design_text_fenced) =
    json_loads ("json" +:+ nl +:+ design_text +:+ nl) ∧
  json_value_start design_text = true ∧
  json_value_start (unfence design_text_fenced) = false.
Proof.
  assert (Hplain : unfence design_text = design_text) by by vm_compute.
  assert (Hfenced : unfence design_text_fenced =
                    "json" +:+ nl +:+ design_text +:+ nl) by by vm_compute.
  unfold get_ai_design. simpl. rewrite Hplain, Hfenced.
  repeat split; by vm_compute.
Qed.


(** * Further properties of the classifier and the scene generator *)

Lemma detect_domains_elem (components : list string) (tag : string) :
  tag ∈ detect_domains components ↔
  ∃ c, c ∈ components ∧
       Str.any_in (Str.lower c) (domain_markers tag) = true.
Proof.
  unfold detect_domains, detect_domains_set.
  rewrite elem_of_elements, detect_domains_set_elem.
  split; [intros [[]%elem_of_empty | H]; exact H | by right].
Qed.


(** Classifying two lists of components one after the other finds the
    tags of the first list and the tags of the second: nothing a
    component contributes depends on the components around it. *)
Theorem detect_domains_app (components components' : list string)
    (tag : string) :
  tag ∈ detect_domains (components ++ components') ↔
  tag ∈ detect_domains components ∨ tag ∈ detect_domains components'.
Proof.
  rewrite !detect_domains_elem. setoid_rewrite elem_of_app. split.
  - intros (c & [Hc | Hc] & Hany); [left | right]; eauto.
  - intros [(c & Hc & Hany) | (c & Hc & Hany)]; eauto.
Qed.

(** The two keyword tables agree where they overlap: a component that
    resolves to the DHT11 is classified as a sensor, one that resolves to
    the LCD1602 or the SSD1306 as a display, and one that resolves to the
    relay, the servo or the buzzer as an actuator. *)
Theorem part_type_domain (c ty : string) :
  component_to_wokwi_part c = Some ty →
  (ty = "wokwi-dht11" → "sensor" ∈ detect_domains [c]) ∧
  (ty = "wokwi-lcd1602" ∨ ty = "wokwi-ssd1306" →
   "display" ∈ detect_domains [c]) ∧
  (ty = "wokwi-relay" ∨ ty = "wokwi-servo" ∨ ty = "wokwi-buzzer" →
   "actuator" ∈ detect_domains [c]).
Proof.
  intros Hty.
  assert (Hin : ∀ tag m, m ∈ domain_markers tag →
                  Str.contains m (Str.lower c) = true →
                  tag ∈ detect_domains [c]).
  { intros tag m Hm Hc. apply detect_domains_elem. exists c.
    split; [apply list_elem_of_here|]. apply StrFacts.any_in_spec. eauto. }
  unfold component_to_wokwi_part in Hty.
  repeat match type of Hty with
  | context [if ?b then _ else _] => destruct b eqn:?
  end; try discriminate Hty; injection Hty as <-;
  (split; [|split]); intros Heq;
  repeat match type of Heq with _ ∨ _ => destruct Heq as [Heq | Heq] end;
  try discriminate Heq;
  match goal with
  | H : Str.contains ?m _ = true |- _ =>
      apply (Hin _ m); [apply (bool_decide_unpack _); by vm_compute | exact H]
  end.
Qed.

Lemma part_type_domain_lcd : "display" ∈ detect_domains ["LCD 16x2"].
Proof.
  apply (part_type_domain "LCD 16x2" "wokwi-lcd1602"); [reflexivity|].
  left. reflexivity.
Defined.

Lemma grid_inj (i j : nat) :
  grid_left i = grid_left j → grid_top i = grid_top j → i = j.
Proof.
  unfold grid_left, grid_top. intros Hl Ht.
  apply (inj Z.of_nat).
  rewrite (Z.div_mod (Z.of_nat i) 4), (Z.div_mod (Z.of_nat j) 4) by lia.
  lia.
Qed.

Lemma grid_range (i : nat) :
  grid_left i ∈ [-180; -60; 60; 180] ∧ 140 ≤ grid_top i.
Proof.
  unfold grid_left, grid_top.
  pose proof (Z.mod_pos_bound (Z.of_nat i) 4 ltac:(lia)) as Hm.
  pose proof (Z.div_pos (Z.of_nat i) 4 ltac:(lia) ltac:(lia)) as Hd.
  split; [|lia].
  rewrite !elem_of_cons.
  assert (Z.of_nat i `mod` 4 = 0 ∨ Z.of_nat i `mod` 4 = 1 ∨
          Z.of_nat i `mod` 4 = 2 ∨ Z.of_nat i `mod` 4 = 3)
    as [-> | [-> | [-> | ->]]] by lia; auto.
Qed.

(** No two parts of a diagram are at the same position: the parts besides
    the board are in one of the four columns -180, -60, 60, 180, on a row
    at top 140 or below, two of them never in the same cell, and none at
    the board's position. *)
Theorem parts_do_not_overlap (mcu : string) (components : list string)
    (i j : nat) (p q : part) :
  parts (generate_wokwi_diagram mcu components) !! i = Some p →
  parts (generate_wokwi_diagram mcu components) !! j = Some q →
  part_left p = part_left q → part_top p = part_top q →
  i = j ∧
  ((i = 0)%nat ∨ part_left p ∈ [-180; -60; 60; 180] ∧ 140 ≤ part_top p).
Proof.
  rewrite generate_wokwi_diagram_parts. intros Hp Hq Hl Ht.
  assert (Hboard : ∀ fam, part_top (board_part fam) = 0) by by intros [].
  destruct i as [|i], j as [|j]; simpl in Hp, Hq.
  - auto.
  - injection Hp as <-. apply imap_placed_lookup in Hq as (ty & _ & ->).
    pose proof (grid_range j) as [_ Hr]. rewrite Hboard in Ht.
    simpl in Ht. lia.
  - injection Hq as <-. apply imap_placed_lookup in Hp as (ty & _ & ->).
    pose proof (grid_range i) as [_ Hr]. rewrite Hboard in Ht.
    simpl in Ht. lia.
  - apply imap_placed_lookup in Hp as (ty & _ & ->).
    apply imap_placed_lookup in Hq as (ty' & _ & ->).
    simpl in Hl, Ht. split; [f_equal; by apply grid_inj|].
    right. apply grid_range.
Qed.

Lemma parts_do_not_overlap_five :
  (4 = 4)%nat ∧
  ((4 = 0)%nat ∨ 180 ∈ [-180; -60; 60; 180] ∧ 140 ≤ 140).
Proof.
  apply (parts_do_not_overlap "Arduino Uno" five_components 4 4
           (placed 3 "wokwi-servo") (placed 3 "wokwi-servo"));
    reflexivity.
Defined.

Lemma generate_wokwi_diagram_eq (mcu : string) (components : list string) :
  generate_wokwi_diagram mcu components =
  Diagram 1 "IoT GPT" "wokwi"
    (parts (generate_wokwi_diagram mcu components)) [].
Proof. reflexivity. Qed.

Lemma resolved_filter (components : list string) :
  resolved (filter (λ c, is_Some (component_to_wokwi_part c)) components) =
  resolved components.
Proof.
  unfold resolved. induction components as [|c cs IH]; [done|].
  rewrite filter_cons.
  destruct (component_to_wokwi_part c) as [ty|] eqn:Hc.
  - rewrite decide_True by eauto. simpl. rewrite Hc. f_equal. exact IH.
  - rewrite decide_False by (by intros [? ?]). simpl. rewrite Hc. exact IH.
Qed.

(** Components that resolve to no part leave no trace in the diagram:
    the diagram is the one of the resolvable components alone, wherever
    the others stand in the list. *)
Theorem unresolved_components_ignored (mcu : string)
    (components : list string) :
  generate_wokwi_diagram mcu components =
  generate_wokwi_diagram mcu
    (filter (λ c, is_Some (component_to_wokwi_part c)) components).
Proof.
  rewrite (generate_wokwi_diagram_eq mcu components),
    (generate_wokwi_diagram_eq mcu (filter _ _)).
  by rewrite !generate_wokwi_diagram_parts, resolved_filter.
Qed.

(** Adding components at the end of the list only adds parts at the end
    of the diagram: the parts of the shorter list keep their identifiers,
    types and positions. *)
Theorem more_components_extend_parts (mcu : string)
    (components components' : list string) :
  parts (generate_wokwi_diagram mcu components) `prefix_of`
  parts (generate_wokwi_diagram mcu (components ++ components')).
Proof.
  rewrite !generate_wokwi_diagram_parts. unfold resolved.
  rewrite omap_app, imap_app.
  apply prefix_cons, prefix_app_r. done.
Qed.

(** * Further properties of the fence handling *)

Module FenceFacts.
Import Text.

Lemma app_nil_r (s : string) : s +:+ EmptyString = s.
Proof.
  induction s as [|c s IH]; [done|]. by rewrite StrFacts.app_cons, IH.
Qed.

(** Stripping on the right of two texts in a row. *)
Lemma rstrip_app_cases (s t : string) :
  rstrip (s +:+ t) =
  match rstrip t with
  | EmptyString => rstrip s
  | String _ _ => s +:+ rstrip t
  end.
Proof.
  induction s as [|c s IH].
  - rewrite StrFacts.app_nil_l. by destruct (rstrip t).
  - rewrite StrFacts.app_cons. cbn [rstrip]. rewrite IH.
    destruct (rstrip t) as [|a r]; [done|].
    rewrite StrFacts.app_cons. by destruct s.
Qed.

Lemma rstrip_no_backquote (s : string) :
  Str.contains "`" s = false → Str.contains "`" (rstrip s) = false.
Proof.
  induction s as [|c s IH]; [done|].
  rewrite TextFacts.contains_backquote_cons.
  intros [Hc Hs]%orb_false_iff. cbn [rstrip].
  destruct (rstrip s) as [|a r] eqn:Hr.
  - destruct (is_space c); [done|].
    by rewrite TextFacts.contains_backquote_cons, Hc.
  - by rewrite TextFacts.contains_backquote_cons, Hc, IH.
Qed.

(** The scan of a text without a backquote finds no separator. *)
Lemma split_go_plain (s cur : string) :
  Str.contains "`" s = false → split_go "```" 0 cur s = [cur +:+ s].
Proof.
  revert cur. induction s as [|c s IH]; intros cur Hs.
  - by rewrite app_nil_r.
  - rewrite TextFacts.contains_backquote_cons in Hs.
    apply orb_false_iff in Hs as [Hc Hs].
    change (split_go "```" 0 cur (String c s))
      with (if Ascii.eqb "`" c && Str.startswith s "``"
            then cur :: split_go "```" 2 EmptyString s
            else split_go "```" 0 (cur +:+ String c EmptyString) s).
    rewrite Hc. cbn [andb]. rewrite (IH _ Hs).
    by rewrite TextFacts.app_assoc.
Qed.

(** The scan up to the first fence, whatever comes after it. *)
Lemma split_go_first_fence (body rest cur : string) :
  Str.contains "`" body = false →
  ∃ more, split_go "```" 0 cur (body +:+ "```" +:+ rest) =
          (cur +:+ body) :: more.
Proof.
  revert cur. induction body as [|c body IH]; intros cur Hbody.
  - rewrite app_nil_r. eexists. reflexivity.
  - rewrite TextFacts.contains_backquote_cons in Hbody.
    apply orb_false_iff in Hbody as [Hc Hbody].
    rewrite StrFacts.app_cons.
    change (split_go "```" 0 cur (String c (body +:+ "```" +:+ rest)))
      with (if Ascii.eqb "`" c &&
               Str.startswith (body +:+ "```" +:+ rest) "``"
            then cur :: split_go "```" 2 EmptyString
                          (body +:+ "```" +:+ rest)
            else split_go "```" 0 (cur +:+ String c EmptyString)
                   (body +:+ "```" +:+ rest)).
    rewrite Hc. cbn [andb].
    destruct (IH (cur +:+ String c EmptyString) Hbody) as [more ->].
    exists more. by rewrite TextFacts.app_assoc.
Qed.

End FenceFacts.

(** A reply that opens with a fence: what is handed to [json.loads] is
    the text between the opening fence and the next one, a language tag
    that follows the opening fence included, and whatever follows the
    closing fence is dropped.  (The text between the fences is taken not
    to hold a backquote.) *)
Theorem unfence_between_fences (body rest : string) :
  Str.contains "`" body = false →
  unfence ("```" +:+ body +:+ "```" +:+ rest) = body.
Proof.
  intros Hbody. unfold unfence, Text.strip.
  change (Text.lstrip ("```" +:+ body +:+ "```" +:+ rest))
    with ("```" +:+ body +:+ "```" +:+ rest).
  assert (∃ rest', Text.rstrip ("```" +:+ body +:+ "```" +:+ rest) =
                   "```" +:+ body +:+ "```" +:+ rest') as [rest' ->].
  { replace ("```" +:+ body +:+ "```" +:+ rest)
      with ((("```" +:+ body) +:+ "```") +:+ rest)
      by by rewrite !TextFacts.app_assoc.
    rewrite FenceFacts.rstrip_app_cases.
    destruct (Text.rstrip rest) as [|a r].
    - exists EmptyString.
      rewrite (TextFacts.rstrip_app _ "```") by done.
      by rewrite !TextFacts.app_assoc.
    - exists (String a r). by rewrite !TextFacts.app_assoc. }
  change (Str.startswith ("```" +:+ body +:+ "```" +:+ rest') "```")
    with true.
  cbv iota. unfold Text.split.
  change (Text.split_go "```" 0 EmptyString
            ("```" +:+ body +:+ "```" +:+ rest'))
    with (EmptyString ::
          Text.split_go "```" 0 EmptyString (body +:+ "```" +:+ rest')).
  by destruct (FenceFacts.split_go_first_fence body rest' EmptyString Hbody)
    as [more ->].
Qed.

Lemma unfence_between_fences_tagged :
  unfence ("```" +:+ "json {}" +:+ "```" +:+ " Hope this helps!") = "json {}".
Proof.
  apply (unfence_between_fences "json {}" " Hope this helps!").
  reflexivity.
Defined.

(** A reply that opens with a fence and never closes it: what is handed
    to [json.loads] is all that follows the opening fence, without the
    blanks at its end. *)
Theorem unfence_unclosed (body : string) :
  Str.contains "`" body = false →
  unfence ("```" +:+ body) = Text.rstrip body.
Proof.
  intros Hbody. unfold unfence, Text.strip.
  change (Text.lstrip ("```" +:+ body)) with ("```" +:+ body).
  assert (Text.rstrip ("```" +:+ body) = "```" +:+ Text.rstrip body) as ->.
  { rewrite FenceFacts.rstrip_app_cases. by destruct (Text.rstrip body). }
  change (Str.startswith ("```" +:+ Text.rstrip body) "```") with true.
  cbv iota. unfold Text.split.
  change (Text.split_go "```" 0 EmptyString ("```" +:+ Text.rstrip body))
    with (EmptyString ::
          Text.split_go "```" 2 EmptyString ("``" +:+ Text.rstrip body)).
  destruct (Text.rstrip body) as [|a r] eqn:Hr; [reflexivity|].
  change (Text.split_go "```" 2 EmptyString ("``" +:+ String a r))
    with (Text.split_go "```" 0 EmptyString (String a r)).
  rewrite FenceFacts.split_go_plain; [done|].
  rewrite <-Hr. by apply FenceFacts.rstrip_no_backquote.
Qed.

Lemma unfence_unclosed_truncated :
  unfence ("```" +:+ "{ truncated  ") = "{ truncated".
Proof. apply (unfence_unclosed "{ truncated  "). reflexivity. Defined.

(** * Further properties of the progression engine *)

Section AwardMore.
Variable user_id : Z.

(** The loop only appends records of this user, for detected domains. *)
Lemma award_loop_rows (domains : list string) (rows : list (Z * string))
    (g : Z) :
  ∃ new, (foldl (award user_id) (rows, g) domains).1 = rows ++ new ∧
         ∀ row, row ∈ new → row.1 = user_id ∧ row.2 ∈ domains.
Proof.
  revert rows g. induction domains as [|d ds IH]; intros rows g.
  - exists []. split; [by rewrite app_nil_r | by intros ? ?%elem_of_nil].
  - change (foldl (award user_id) (rows, g) (d :: ds))
      with (foldl (award user_id) (award user_id (rows, g) d) ds).
    change (award user_id (rows, g) d)
      with (if domain_used rows user_id d then (rows, g + 5)
            else (rows ++ [(user_id, d)], g + 30)).
    destruct (domain_used rows user_id d).
    + destruct (IH rows (g + 5)) as (new & -> & Hnew).
      exists new. split; [done|]. intros row Hrow.
      destruct (Hnew row Hrow). split; [done|]. by apply list_elem_of_further.
    + destruct (IH (rows ++ [(user_id, d)]) (g + 30)) as (new & -> & Hnew).
      exists ((user_id, d) :: new). split; [by rewrite <-app_assoc|].
      intros row [-> | Hrow]%elem_of_cons.
      * split; [done | apply list_elem_of_here].
      * destruct (Hnew row Hrow). split; [done|].
        by apply list_elem_of_further.
Qed.

(** The loop never writes a record that is there already. *)
Lemma award_loop_NoDup (domains : list string) (rows : list (Z * string))
    (g : Z) :
  NoDup rows → NoDup (foldl (award user_id) (rows, g) domains).1.
Proof.
  revert rows g. induction domains as [|d ds IH]; intros rows g Hnd; [done|].
  change (foldl (award user_id) (rows, g) (d :: ds))
    with (foldl (award user_id) (award user_id (rows, g) d) ds).
  change (award user_id (rows, g) d)
    with (if domain_used rows user_id d then (rows, g + 5)
          else (rows ++ [(user_id, d)], g + 30)).
  destruct (domain_used rows user_id d) eqn:Hused; [by apply IH|].
  apply IH. apply NoDup_app. split; [done|]. split; [|apply NoDup_singleton].
  intros row Hrow ->%list_elem_of_singleton.
  unfold domain_used in Hused. by apply bool_decide_eq_false in Hused.
Qed.

Lemma filter_length_remove {A} `{EqDecision A} (P Q : A → Prop)
    `{∀ x, Decision (P x)} `{∀ x, Decision (Q x)} (l : list A) (d : A) :
  NoDup l → (∀ x, Q x ↔ P x ∧ x ≠ d) → P d →
  length (filter P l) =
  ((if decide (d ∈ l) then 1 else 0) + length (filter Q l))%nat.
Proof.
  intros Hnd HQ HPd. induction l as [|x l IH].
  - rewrite decide_False by apply not_elem_of_nil. done.
  - apply NoDup_cons in Hnd as [Hx Hnd]. specialize (IH Hnd).
    rewrite !filter_cons.
    destruct (decide (x = d)) as [-> | Hne].
    + rewrite decide_False in IH by done.
      rewrite (decide_True (P := P d)) by done.
      rewrite (decide_False (P := Q d)) by (rewrite HQ; tauto).
      rewrite (decide_True (P := d ∈ d :: l)) by apply list_elem_of_here.
      cbn [length]. lia.
    + assert (Hiff : d ∈ x :: l ↔ d ∈ l).
      { rewrite elem_of_cons. split; [intros [? | ?]; congruence | auto]. }
      destruct (decide (d ∈ l));
        [rewrite (decide_True (P := d ∈ x :: l)) by tauto
        |rewrite (decide_False (P := d ∈ x :: l)) by tauto];
        (destruct (decide (P x));
         [rewrite (decide_True (P := Q x)) by (rewrite HQ; tauto)
         |rewrite (decide_False (P := Q x)) by (rewrite HQ; tauto)]);
        cbn [length]; lia.
Qed.

(** The loop over any list of domains, repeats allowed: 5 for each item,
    and 25 more for each distinct domain without a record. *)
Lemma award_loop_gain (domains : list string) (rows : list (Z * string))
    (g : Z) :
  (foldl (award user_id) (rows, g) domains).2 =
  g + 5 * Z.of_nat (length domains) +
  25 * Z.of_nat (length (fresh_domains rows user_id domains)).
Proof.
  revert rows g. induction domains as [|d ds IH]; intros rows g.
  - simpl. lia.
  - change (foldl (award user_id) (rows, g) (d :: ds))
      with (foldl (award user_id) (award user_id (rows, g) d) ds).
    change (award user_id (rows, g) d)
      with (if domain_used rows user_id d then (rows, g + 5)
            else (rows ++ [(user_id, d)], g + 30)).
    unfold fresh_domains in *. cbn [remove_dups length].
    destruct (domain_used rows user_id d) eqn:Hused.
    + rewrite IH. destruct (decide_rel elem_of d ds) as [Hin | Hnin].
      * lia.
      * rewrite filter_cons, decide_False by congruence. lia.
    + rewrite IH.
      pose proof (filter_length_remove
                 (λ x, domain_used rows user_id x = false)
                 (λ x, domain_used (rows ++ [(user_id, d)]) user_id x = false)
                 (remove_dups ds) d (NoDup_remove_dups ds)) as Hcount.
      assert (HQ : ∀ x,
                domain_used (rows ++ [(user_id, d)]) user_id x = false ↔
                domain_used rows user_id x = false ∧ x ≠ d).
      { intros x. rewrite domain_used_snoc, orb_false_iff,
          bool_decide_eq_false. done. }
      specialize (Hcount HQ Hused).
      destruct (decide_rel elem_of d ds) as [Hin | Hnin].
      * rewrite Hcount.
        rewrite decide_True by (by apply elem_of_remove_dups). lia.
      * rewrite filter_cons, decide_True by done. cbn [length].
        rewrite Hcount.
        rewrite decide_False by (by rewrite elem_of_remove_dups). lia.
Qed.

End AwardMore.

Lemma update_xp_and_streak_frame (d d' : db) (today user_id : Z)
    (domains : list string) (u : user_row) (res : Z * Z * Z) :
  users d !! user_id = Some u →
  update_xp_and_streak d today user_id domains = Some (d', res) →
  (∀ other, other ≠ user_id → users d' !! other = users d !! other) ∧
  chats d' = chats d ∧
  (∃ u', users d' !! user_id = Some u' ∧
         username u' = username u ∧ password u' = password u ∧
         res = (xp u', streak u', xp u' - xp u)) ∧
  ∃ new, domains_used d' = domains_used d ++ new ∧
         ∀ row, row ∈ new → row.1 = user_id ∧ row.2 ∈ domains.
Proof.
  intros Hu.
  rewrite (update_xp_and_streak_Some d today user_id domains u Hu). cbv zeta.
  intros [= <- <-]. cbn [users chats domains_used].
  split; [intros other Hne; by apply lookup_insert_ne|].
  split; [done|].
  split.
  { eexists. split; [apply lookup_insert_eq|]. cbn [username password xp streak].
    repeat split. do 2 f_equal. lia. }
  apply award_loop_rows.
Qed.

(** A call touches the caller's row and the caller's usage records and
    nothing else: the rows of the other users and the chats are as they
    were, the user's name and password too, and the usage records are
    the old ones followed by new records of this user for detected
    domains. *)
Theorem update_touches_only_user (d d' : db) (today user_id : Z)
    (domains : list string) (u : user_row) (res : Z * Z * Z) :
  users d !! user_id = Some u →
  update_xp_and_streak d today user_id domains = Some (d', res) →
  (∀ other, other ≠ user_id → users d' !! other = users d !! other) ∧
  chats d' = chats d ∧
  (∃ u', users d' !! user_id = Some u' ∧
         username u' = username u ∧ password u' = password u) ∧
  ∃ new, domains_used d' = domains_used d ++ new ∧
         ∀ row, row ∈ new → row.1 = user_id ∧ row.2 ∈ domains.
Proof.
  intros Hu Hupd.
  destruct (update_xp_and_streak_frame d d' today user_id domains u res
              Hu Hupd) as (Hother & Hchats & (u' & Hu' & Hn & Hp & _) & Hrows).
  eauto 10.
Qed.

Lemma update_touches_only_user_seen :
  chats (db_seen_cloud 180) = chats db_seen.
Proof.
  eapply (update_touches_only_user db_seen (db_seen_cloud 180) 100 7
            ["cloud"] _ (180, 5, 60)); reflexivity.
Defined.

(** A call never stores a usage record twice, whatever the list of
    domains and even if it names a domain more than once: usage records
    that are pairwise distinct before the call are pairwise distinct
    after it. *)
Theorem update_keeps_records_distinct (d d' : db) (today user_id : Z)
    (domains : list string) (res : Z * Z * Z) :
  NoDup (domains_used d) →
  update_xp_and_streak d today user_id domains = Some (d', res) →
  NoDup (domains_used d').
Proof.
  intros Hnd. unfold update_xp_and_streak.
  destruct (users d !! user_id) as [u|]; [|done]. cbv zeta.
  pose proof (award_loop_NoDup user_id domains (domains_used d) 0 Hnd) as H.
  destruct (foldl (award user_id) (domains_used d, 0) domains) as [rows g].
  by intros [= <- _].
Qed.

Lemma update_keeps_records_distinct_seen :
  NoDup (domains_used (db_seen_cloud 190)).
Proof.
  apply (update_keeps_records_distinct db_seen (db_seen_cloud 190) 100 7
           ["cloud"; "sensor"; "cloud"] (190, 5, 70)); [|reflexivity].
  apply (bool_decide_unpack _). vm_compute. exact I.
Defined.

(** The gain for any list of domains, repeats allowed: 5 for every item
    of the list, 25 more for every distinct domain the user had no usage
    record for, and the flat bonuses.  A domain without a record that
    is named twice is awarded 30 once and 5 for every further mention. *)
Theorem xp_gain_with_repeats (d : db) (today user_id : Z)
    (domains : list string) (u : user_row) :
  users d !! user_id = Some u →
  ∃ d' streak',
    update_xp_and_streak d today user_id domains =
      Some (d', (xp u + (5 * Z.of_nat (length domains) +
                         25 * Z.of_nat (length (fresh_domains (domains_used d)
                                                  user_id domains)) +
                         flat_bonus domains),
                 streak',
                 5 * Z.of_nat (length domains) +
                 25 * Z.of_nat (length (fresh_domains (domains_used d)
                                          user_id domains)) +
                 flat_bonus domains)).
Proof.
  intros Hu.
  rewrite (update_xp_and_streak_Some d today user_id domains u Hu). cbv zeta.
  rewrite award_loop_gain, Z.add_0_l. eauto.
Qed.

Lemma xp_gain_with_repeats_seen :
  ∃ d' streak',
    update_xp_and_streak db_seen 100 7 ["cloud"; "sensor"; "cloud"] =
      Some (d', (190, streak', 70)).
Proof.
  apply (xp_gain_with_repeats db_seen 100 7 ["cloud"; "sensor"; "cloud"]
           (UserRow "ann" "secret" 120 4 (Some 99))).
  reflexivity.
Defined.

(** A call keeps a row in order: if the XP was not negative and a user
    who had visited had a streak of one at least, the same holds after
    the call, and then the user has visited today and has a streak of
    one at least. *)
Theorem update_keeps_user_ok (d d' : db) (today user_id : Z)
    (domains : list string) (u : user_row) (res : Z * Z * Z) :
  users d !! user_id = Some u → user_ok u →
  update_xp_and_streak d today user_id domains = Some (d', res) →
  ∃ u', users d' !! user_id = Some u' ∧ user_ok u' ∧
        1 ≤ streak u' ∧ last_visit u' = Some today.
Proof.
  intros Hu [Hxp Hstreak].
  rewrite (update_xp_and_streak_Some d today user_id domains u Hu). cbv zeta.
  intros [= <- _]. cbn [users].
  eexists. split; [apply lookup_insert_eq|].
  pose proof (award_gain_le user_id domains (domains_used d) 0) as Hle.
  assert (0 ≤ flat_bonus domains)
    by (unfold flat_bonus; repeat case_bool_decide; lia).
  assert (Hs : 1 ≤ match last_visit u with
                   | Some last =>
                       if today - last =? 1 then streak u + 1
                       else if today - last >? 1 then 1 else streak u
                   | None => 1
                   end).
  { destruct Hstreak as [-> | Hs]; [lia|].
    destruct (last_visit u); [|lia]. repeat case_match; lia. }
  unfold user_ok. cbn [xp streak last_visit].
  split; [split; [lia | by right]|]. done.
Qed.

Lemma update_keeps_user_ok_new :
  ∃ u', users db_new_sensor !! 7 = Some u' ∧
        user_ok u' ∧ 1 ≤ streak u' ∧ last_visit u' = Some 100.
Proof.
  apply (update_keeps_user_ok db_new db_new_sensor 100 7 ["sensor"]
           (UserRow "ann" "secret" 0 0 None) (30, 1, 30)).
  - reflexivity.
  - split; [simpl; lia | left; reflexivity].
  - reflexivity.
Defined.

(** Two calls in a row for one user.  After a call on some day, the next
    call leaves the streak as the first call set it when it comes on the
    same day (or on an earlier one), raises it by one when it comes on
    the day after, and sets it to 1 when it comes later. *)
Theorem streak_of_second_call (d d1 : db) (today1 today2 user_id : Z)
    (domains1 domains2 : list string) (xp1 streak1 gained1 : Z) :
  update_xp_and_streak d today1 user_id domains1 =
    Some (d1, (xp1, streak1, gained1)) →
  ∃ d2 xp2 gained2 streak2,
    update_xp_and_streak d1 today2 user_id domains2 =
      Some (d2, (xp2, streak2, gained2)) ∧
    (today2 ≤ today1 → streak2 = streak1) ∧
    (today2 = today1 + 1 → streak2 = streak1 + 1) ∧
    (today1 + 1 < today2 → streak2 = 1).
Proof.
  intros Hfirst.
  destruct (users d !! user_id) as [u|] eqn:Hu;
    [|by unfold update_xp_and_streak in Hfirst; rewrite Hu in Hfirst].
  rewrite (update_xp_and_streak_Some d today1 user_id domains1 u Hu)
    in Hfirst. cbv zeta in Hfirst.
  injection Hfirst as <- _ <- _.
  match goal with
  | |- context [update_xp_and_streak (Db (<[_ := ?u1]> _) _ _)] =>
      rewrite (update_xp_and_streak_Some _ today2 user_id domains2 u1)
        by apply lookup_insert_eq
  end.
  cbv zeta. cbn [streak last_visit].
  eexists _, _, _, _. split; [reflexivity|].
  split; [|split]; intros Hday.
  - destruct (Z.eqb_spec (today2 - today1) 1); [lia|].
    destruct (Z.gtb_spec (today2 - today1) 1); [lia | done].
  - replace (today2 - today1) with 1 by lia. done.
  - destruct (Z.eqb_spec (today2 - today1) 1); [lia|].
    destruct (Z.gtb_spec (today2 - today1) 1); [done | lia].
Qed.

Lemma streak_of_second_call_next_day :
  ∃ d2 xp2 gained2,
    update_xp_and_streak db_new_sensor 101 7 ["sensor"] =
      Some (d2, (xp2, 2, gained2)).
Proof.
  destruct (streak_of_second_call db_new db_new_sensor 100 101 7
              ["sensor"] ["sensor"] 30 1 30 eq_refl)
    as (d2 & xp2 & gained2 & streak2 & Hupd & _ & Hnext & _).
  rewrite (Hnext eq_refl) in Hupd. by exists d2, xp2, gained2.
Defined.



(** * Further properties of the interaction handler *)

Section HomeMore.
Variable json_loads : string → option json.

(** How the [try] block can end: before anything is stored; or after the
    XP and the streak are stored, without the link, the diagram and the
    chat; or with everything done. *)
Lemma home_try_cases (d d' : db) (today user_id : Z)
    (project : option string) (r : reply) (vars vars' : locals) :
  home_try json_loads d today user_id project r vars = (d', vars') →
  (d' = d ∧ v_xp vars' = v_xp vars ∧ v_streak vars' = v_streak vars ∧
   v_gained vars' = v_gained vars ∧ v_sim_link vars' = v_sim_link vars ∧
   v_wokwi_json vars' = v_wokwi_json vars) ∨
  ∃ data components d1 xp1 streak1 gained1,
    get_ai_design json_loads r = Some data ∧
    Py.getitem data "components" ≫= Py.str_items = Some components ∧
    update_xp_and_streak d today user_id (detect_domains components) =
      Some (d1, (xp1, streak1, gained1)) ∧
    v_data vars' = Some data ∧
    v_xp vars' = xp1 ∧ v_streak vars' = streak1 ∧
    v_gained vars' = Some gained1 ∧
    ((Py.getitem data "microcontroller" ≫= Py.as_str = None ∧ d' = d1 ∧
      v_sim_link vars' = v_sim_link vars ∧
      v_wokwi_json vars' = v_wokwi_json vars) ∨
     (∃ mcu, Py.getitem data "microcontroller" ≫= Py.as_str = Some mcu ∧
        d' = Db (users d1) (chats d1 ++ [(user_id, project)])
                (domains_used d1) ∧
        v_sim_link vars' = Some (get_wokwi_link mcu) ∧
        v_wokwi_json vars' =
          Some (generate_wokwi_diagram mcu components))).
Proof.
  unfold home_try.
  destruct (get_ai_design json_loads r) as [data|] eqn:Hdata;
    [|intros [= <- <-]; left; done].
  destruct (Py.getitem data "components" ≫= Py.str_items)
    as [components|] eqn:Hcomp; [|intros [= <- <-]; left; done].
  destruct (update_xp_and_streak d today user_id (detect_domains components))
    as [[d1 [[xp1 streak1] gained1]]|] eqn:Hupd;
    [|intros [= <- <-]; left; done].
  destruct (Py.getitem data "microcontroller" ≫= Py.as_str)
    as [mcu|] eqn:Hmcu; intros [= <- <-]; right;
    exists data, components, d1, xp1, streak1, gained1;
    repeat (split; [done|]); [right; exists mcu | left]; done.
Qed.

End HomeMore.

(** The XP and the streak the page shows are the ones stored: whenever
    the handler gets to the template, also after a design request that
    failed half-way, the two numbers handed to it are those of the
    user's row as the handler leaves it. *)
Theorem home_shows_stored (json_loads : string → option json) (d d' : db)
    (today user_id : Z) (project : option string) (r : reply)
    (vars : locals) :
  home json_loads d today user_id project r = (d', Some vars) →
  ∃ u', users d' !! user_id = Some u' ∧
        v_xp vars = xp u' ∧ v_streak vars = streak u'.
Proof.
  unfold home. destruct (users d !! user_id) as [u|] eqn:Hu; [|done].
  destruct (home_try _ _ _ _ _ _ _) as [d1 vars1] eqn:Htry.
  destruct (renders vars1); intros [= <- <-].
  apply home_try_cases in Htry
    as [(-> & Hxp & Hst & _) |
        (data & comps & d2 & xp2 & st2 & g2 & _ & _ & Hupd & _ & Hxp & Hst
           & _ & Hend)].
  - exists u. by rewrite Hxp, Hst.
  - destruct (update_xp_and_streak_frame _ _ _ _ _ u _ Hu Hupd)
      as (_ & _ & (u' & Hu' & _ & _ & [= -> -> _]) & _).
    exists u'. destruct Hend as [(_ & -> & _) | (mcu & _ & -> & _)]; done.
Qed.

Lemma home_shows_stored_upstream_error :
  ∃ u', users db_seen !! 7 = Some u' ∧ 120 = xp u' ∧ 4 = streak u'.
Proof.
  apply (home_shows_stored loads_components_only db_seen db_seen 100 7
           (Some "weather station") None
           (Locals None None None None 120 4)).
  reflexivity.
Defined.

(** What a POST can change: the rows of the other users are as they
    were, the usage records are the old ones followed by records of this
    user, and the chats are the old ones, followed by this user's project
    or by nothing. *)
Theorem home_touches_only_user (json_loads : string → option json) (d : db)
    (today user_id : Z) (project : option string) (r : reply) :
  let d' := (home json_loads d today user_id project r).1 in
  (∀ other, other ≠ user_id → users d' !! other = users d !! other) ∧
  (∃ new, domains_used d' = domains_used d ++ new ∧
          ∀ row, row ∈ new → row.1 = user_id) ∧
  (chats d' = chats d ∨ chats d' = chats d ++ [(user_id, project)]).
Proof.
  intros d'. subst d'.
  assert (Hsame : (∀ other, other ≠ user_id →
                     users d !! other = users d !! other) ∧
                  (∃ new, domains_used d = domains_used d ++ new ∧
                          ∀ row, row ∈ new → row.1 = user_id) ∧
                  (chats d = chats d ∨
                   chats d = chats d ++ [(user_id, project)])).
  { split; [done|]. split; [|by left].
    exists []. split; [by rewrite app_nil_r | by intros ? ?%elem_of_nil]. }
  destruct (users d !! user_id) as [u|] eqn:Hu;
    [|unfold home; by rewrite Hu].
  rewrite (home_db json_loads d today user_id project r u Hu).
  destruct (home_try _ _ _ _ _ _ _) as [d1 vars1] eqn:Htry. cbn [fst].
  apply home_try_cases in Htry
    as [(-> & _) |
        (data & comps & d2 & xp2 & st2 & g2 & _ & _ & Hupd & _ & _ & _
           & _ & Hend)]; [done|].
  destruct (update_xp_and_streak_frame _ _ _ _ _ u _ Hu Hupd)
    as (Hother & Hchats & _ & (new & Hrows & Hnew)).
  assert (∀ row, row ∈ new → row.1 = user_id) by (intros; by apply Hnew).
  destruct Hend as [(_ & -> & _) | (mcu & _ & -> & _)]; cbn [users chats
    domains_used]; rewrite Hchats; eauto 10.
Qed.

Lemma str_items_list (components : list string) :
  Py.str_items (JList (JStr <$> components)) = Some components.
Proof.
  unfold Py.str_items. simpl. apply mapM_Some.
  induction components as [|c cs IH]; constructor; done.
Qed.

(** A design request that succeeds, for a user with a row, with a
    document whose components are a list of strings and whose
    microcontroller is a string: the classifier's domains are scored,
    the gain is the one the scoring rule gives for them, the link and
    the diagram are those of the document, the project is added to the
    chats, and, when the document has its seven fields, all of this is
    handed to the template. *)
Theorem home_success (json_loads : string → option json) (d : db)
    (today user_id : Z) (project : option string) (r : reply)
    (data : json) (components : list string) (mcu : string) (u : user_row) :
  users d !! user_id = Some u →
  get_ai_design json_loads r = Some data →
  Py.getitem data "components" = Some (JList (JStr <$> components)) →
  Py.getitem data "microcontroller" = Some (JStr mcu) →
  let gain := xp_gain (domains_used d) user_id (detect_domains components) in
  ∃ d1 streak',
    update_xp_and_streak d today user_id (detect_domains components) =
      Some (d1, (xp u + gain, streak', gain)) ∧
    (home json_loads d today user_id project r).1 =
      Db (users d1) (chats d ++ [(user_id, project)]) (domains_used d1) ∧
    ((∀ k, k ∈ required_fields → is_Some (Py.getitem data k)) →
     (home json_loads d today user_id project r).2 =
       Some (Locals (Some data) (Some gain) (Some (get_wokwi_link mcu))
               (Some (generate_wokwi_diagram mcu components))
               (xp u + gain) streak')).
Proof.
  intros Hu Hdata Hcomp Hmcu gain.
  assert (Hnd : NoDup (detect_domains components))
    by (unfold detect_domains; apply NoDup_elements).
  destruct (update_xp_and_streak_gain d today user_id
              (detect_domains components) u Hnd Hu)
    as (d1 & u1 & Hupd & _).
  fold gain in Hupd. exists d1, (streak u1). split; [done|].
  assert (Hchats : chats d1 = chats d).
  { by destruct (update_xp_and_streak_frame _ _ _ _ _ u _ Hu Hupd)
      as (_ & -> & _). }
  unfold home, home_try.
  rewrite Hu, Hdata, Hcomp. cbn [mbind option_bind].
  rewrite str_items_list, Hupd, Hmcu. cbn [mbind option_bind Py.as_str].
  cbn [fst snd v_data v_gained v_sim_link v_wokwi_json v_xp v_streak].
  rewrite Hchats. split; [done|].
  intros Hfields. unfold renders. cbn [v_data].
  assert (Py.truth data = true) as ->.
  { destruct data as [| | | | | |[|kv m]]; try discriminate Hcomp.
    done. }
  assert (forallb (λ k, bool_decide (is_Some (Py.getitem data k)))
            required_fields = true) as Hall.
  { apply forallb_forall. intros k Hk. apply bool_decide_eq_true.
    by apply Hfields, list_elem_of_In. }
  unfold required_fields in Hall. by rewrite Hall.
Qed.

Lemma home_success_design :
  ∃ d1 streak',
    update_xp_and_streak db_new 100 7 (detect_domains ["DHT11"]) =
      Some (d1, (30, streak', 30)) ∧
    (home loads_design db_new 100 7 (Some "weather station")
       (Some design_text_fenced)).1 = db_new ∧
    (home loads_design db_new 100 7 (Some "weather station")
       (Some design_text)).1 =
      Db (users d1) [(7, Some "weather station")] (domains_used d1).
Proof.
  destruct (home_success loads_design db_new 100 7 (Some "weather station")
              (Some design_text) design_document ["DHT11"] "ESP32"
              (UserRow "ann" "secret" 0 0 None))
    as (d1 & streak' & Hupd & Hdb & _); try reflexivity.
  exists d1, streak'. split; [exact Hupd|]. split; [by vm_compute | exact Hdb].
Defined.

(** * Properties of the authentication routes *)

Lemma username_taken_spec (m : gmap Z user_row) (name : string) :
  username_taken m name = true ↔
  ∃ i row, m !! i = Some row ∧ username row = name.
Proof.
  unfold username_taken. rewrite bool_decide_eq_true, list_elem_of_fmap.
  split.
  - intros ([i row] & -> & Hin%elem_of_map_to_list). eauto.
  - intros (i & row & Hrow & <-). exists (i, row).
    split; [done | by apply elem_of_map_to_list].
Qed.

Lemma next_id_fresh (m : gmap Z user_row) : m !! next_id m = None.
Proof.
  assert (Hmax : ∀ (l : list Z) k, k ∈ l → k ≤ foldr Z.max 0 l).
  { induction l as [|x l IH]; intros k Hk; [by apply elem_of_nil in Hk|].
    apply elem_of_cons in Hk as [-> | Hk]; simpl; [lia|].
    specialize (IH k Hk). lia. }
  destruct (m !! next_id m) as [row|] eqn:Hrow; [|done].
  assert (next_id m ∈ (map_to_list m).*1) as Hin.
  { apply list_elem_of_fmap. exists (next_id m, row).
    split; [done | by apply elem_of_map_to_list]. }
  apply Hmax in Hin. unfold next_id in Hin at 1. lia.
Qed.

Lemma select_user_id_Some (m : gmap Z user_row) (u p : string) (i : Z) :
  select_user_id m u p = Some i →
  ∃ row, m !! i = Some row ∧ username row = u ∧ password row = p.
Proof.
  unfold select_user_id.
  destruct (list_find _ _) as [[n [j row]]|] eqn:Hfind; [|done].
  intros [= <-]. apply list_find_Some in Hfind as (Hn & [? ?] & _).
  exists row. split; [|done].
  apply elem_of_map_to_list. by eapply list_elem_of_lookup_2.
Qed.

Lemma select_user_id_None (m : gmap Z user_row) (u p : string) :
  select_user_id m u p = None ↔
  ∀ i row, m !! i = Some row → ¬ (username row = u ∧ password row = p).
Proof.
  unfold select_user_id. rewrite fmap_None, list_find_None, Forall_forall.
  split.
  - intros H i row Hrow. apply (H (i, row)). by apply elem_of_map_to_list.
  - intros H [i row] Hin%elem_of_map_to_list. by apply (H i row).
Qed.

(** Signing up with a name that no row has and logging in with the same
    name and password: the signup stores a new row with the name, the
    password, no XP, no streak and no visit, under an id that was free,
    and redirects to the login; the login then finds this id, puts it in
    the session with the name, and redirects to the home page. *)
Theorem signup_then_login (d : db) (s : session) (u p : string) :
  (∀ i row, users d !! i = Some row → username row ≠ u) →
  ∃ d' user,
    signup d (POST u p) = (d', Redirect "login") ∧
    users d !! user = None ∧
    users d' !! user = Some (UserRow u p 0 0 None) ∧
    login d' s (POST u p) = (Some (user, u), Redirect "home").
Proof.
  intros Hfree. unfold signup.
  assert (username_taken (users d) u = false) as ->.
  { apply not_true_iff_false. intros (i & row & Hrow & Hname)%username_taken_spec.
    by apply (Hfree i row). }
  eexists _, (next_id (users d)). split; [reflexivity|].
  split; [apply next_id_fresh|]. cbn [users].
  split; [apply lookup_insert_eq|].
  unfold login. cbn [users].
  destruct (select_user_id _ u p) as [i|] eqn:Hsel.
  - apply select_user_id_Some in Hsel as (row & Hrow & Hname & _).
    destruct (decide (i = next_id (users d))) as [-> | Hne]; [done|].
    rewrite lookup_insert_ne in Hrow by done. by destruct (Hfree i row).
  - rewrite select_user_id_None in Hsel.
    destruct (Hsel (next_id (users d)) (UserRow u p 0 0 None)); [|done].
    apply lookup_insert_eq.
Qed.

Lemma signup_then_login_bob :
  ∃ d' user,
    signup db_seen (POST "bob" "hunter2") = (d', Redirect "login") ∧
    users db_seen !! user = None ∧
    users d' !! user = Some (UserRow "bob" "hunter2" 0 0 None) ∧
    login d' None (POST "bob" "hunter2") = (Some (user, "bob"), Redirect "home").
Proof.
  apply (signup_then_login db_seen None "bob" "hunter2").
  intros i row Hrow. cbn [db_seen users] in Hrow.
  apply lookup_singleton_Some in Hrow as [_ <-]. done.
Defined.

(** Signing up with a name that a row has already changes nothing and
    shows the form again with the error "Username exists". *)
Theorem signup_taken (d : db) (u p : string) (i : Z) (row : user_row) :
  users d !! i = Some row → username row = u →
  signup d (POST u p) = (d, Render "signup.html" (Some "Username exists")).
Proof.
  intros Hrow Hname. unfold signup.
  assert (username_taken (users d) u = true) as ->; [|done].
  apply username_taken_spec. eauto.
Qed.

Lemma signup_taken_ann :
  signup db_seen (POST "ann" "other") =
  (db_seen, Render "signup.html" (Some "Username exists")).
Proof.
  apply (signup_taken db_seen "ann" "other" 7
           (UserRow "ann" "secret" 120 4 (Some 99))); reflexivity.
Defined.

(** A signup keeps what is stored: every row of [users] stays as it is,
    the chats and the usage records too, and names that were pairwise
    distinct stay so. *)
Theorem signup_keeps_rows (d : db) (req : request) :
  let d' := (signup d req).1 in
  (∀ i row, users d !! i = Some row → users d' !! i = Some row) ∧
  chats d' = chats d ∧ domains_used d' = domains_used d ∧
  (unique_usernames d → unique_usernames d').
Proof.
  intros d'. subst d'. destruct req as [|u p]; [done|]. unfold signup.
  destruct (username_taken (users d) u) eqn:Htaken; [done|]. cbn [fst].
  cbn [users chats domains_used].
  assert (Hfree : ∀ i row, users d !! i = Some row → username row ≠ u).
  { intros i row Hrow Hname. apply not_true_iff_false in Htaken.
    apply Htaken, username_taken_spec. eauto. }
  split.
  { intros i row Hrow. rewrite lookup_insert_ne; [done|].
    intros <-. by rewrite next_id_fresh in Hrow. }
  split; [done|]. split; [done|].
  intros Huniq i j ui uj Hi Hj Hname. cbn [users] in Hi, Hj.
  apply lookup_insert_Some in Hi as [[<- <-] | [Hni Hi]];
    apply lookup_insert_Some in Hj as [[<- <-] | [Hnj Hj]].
  - done.
  - by destruct (Hfree j uj).
  - by destruct (Hfree i ui).
  - by apply (Huniq i j ui uj).
Qed.

(** A login with a name and a password.  When it redirects to the home
    page, the session holds the name and the id of a row with this name
    and this password; when no row has both, the session stays as it is
    and the form comes back with the error "Invalid login"; and when
    names are pairwise distinct, the row with the name and the password
    is the one the login finds. *)
Theorem login_finds_user (d : db) (s : session) (u p : string) :
  (∀ s', login d s (POST u p) = (s', Redirect "home") →
     ∃ user row, s' = Some (user, u) ∧ users d !! user = Some row ∧
                 username row = u ∧ password row = p) ∧
  ((∀ i row, users d !! i = Some row →
             ¬ (username row = u ∧ password row = p)) →
   login d s (POST u p) = (s, Render "login.html" (Some "Invalid login"))) ∧
  (unique_usernames d →
   ∀ i row, users d !! i = Some row → username row = u → password row = p →
            login d s (POST u p) = (Some (i, u), Redirect "home")).
Proof.
  unfold login. split; [|split].
  - intros s' Hlogin.
    destruct (select_user_id (users d) u p) as [i|] eqn:Hsel; [|done].
    injection Hlogin as <-.
    apply select_user_id_Some in Hsel as (row & Hrow & Hname & Hpw).
    by exists i, row.
  - intros Hnone. apply select_user_id_None in Hnone. by rewrite Hnone.
  - intros Huniq i row Hrow Hname Hpw.
    destruct (select_user_id (users d) u p) as [j|] eqn:Hsel.
    + apply select_user_id_Some in Hsel as (row' & Hrow' & Hname' & _).
      by rewrite (Huniq i j row row' Hrow Hrow') by congruence.
    + rewrite select_user_id_None in Hsel. by destruct (Hsel i row Hrow).
Qed.

(** * Properties of the helpers of db_helper.py *)

(** Storing a gain for a user with a row, when the service answers: the
    pair returned is the old XP plus the gain and the new streak; it is
    the pair [get_user_stats] reads back; today is the last visit read
    back; and the other rows, the chats and the usage records are as
    they were. *)
Theorem update_user_xp_streak_stored (d : db) (today user_id : Z)
    (xp_gained new_streak : Z) (u : user_row) :
  users d !! user_id = Some u →
  let '(d', res) := DbHelper.update_user_xp_streak d today true true
                      user_id xp_gained new_streak in
  res = (xp u + xp_gained, new_streak) ∧
  DbHelper.get_user_stats d' true user_id = res ∧
  DbHelper.get_user_last_visit d' true user_id = Some today ∧
  (∀ other, other ≠ user_id → users d' !! other = users d !! other) ∧
  chats d' = chats d ∧ domains_used d' = domains_used d.
Proof.
  intros Hu. unfold DbHelper.update_user_xp_streak,
    DbHelper.get_user_stats, DbHelper.get_user_last_visit.
  rewrite Hu. cbn [users chats domains_used].
  rewrite lookup_insert_eq. cbn.
  repeat split; try done.
  intros other Hne. by apply lookup_insert_ne.
Qed.

Lemma update_user_xp_streak_stored_seen :
  let '(d', res) := DbHelper.update_user_xp_streak db_seen 100 true true
                      7 60 5 in
  res = (180, 5) ∧
  DbHelper.get_user_stats d' true 7 = res ∧
  DbHelper.get_user_last_visit d' true 7 = Some 100 ∧
  (∀ other, other ≠ 7 → users d' !! other = users db_seen !! other) ∧
  chats d' = chats db_seen ∧ domains_used d' = domains_used db_seen.
Proof.
  apply (update_user_xp_streak_stored db_seen 100 7 60 5
           (UserRow "ann" "secret" 120 4 (Some 99))).
  reflexivity.
Defined.

(** Storing a gain for a user without a row, when the service answers:
    the helper returns the gain and the new streak as if they were the
    user's, yet nothing is stored, and [get_user_stats] still reads
    zero XP and zero streak. *)
Theorem update_user_xp_streak_no_row (d : db) (today user_id : Z)
    (xp_gained new_streak : Z) :
  users d !! user_id = None →
  DbHelper.update_user_xp_streak d today true true user_id xp_gained
    new_streak = (d, (xp_gained, new_streak)) ∧
  DbHelper.get_user_stats d true user_id = (0, 0).
Proof.
  intros Hu. unfold DbHelper.update_user_xp_streak, DbHelper.get_user_stats.
  rewrite Hu. by destruct d.
Qed.

Lemma update_user_xp_streak_no_row_8 :
  DbHelper.update_user_xp_streak db_seen 100 true true 8 60 1 =
    (db_seen, (60, 1)) ∧
  DbHelper.get_user_stats db_seen true 8 = (0, 0).
Proof.
  apply (update_user_xp_streak_no_row db_seen 100 8 60 1). reflexivity.
Defined.

(** Marking and checking a domain.  After a domain is marked for a user
    (and the service answers), the check for this user and domain says
    yes, and the check for any other user or domain says what it said
    before; the rows of the users and the chats are as they were.  The
    helper does not look whether the record is there: marking adds a
    record each time. *)
Theorem mark_then_check (d : db) (user_id : Z) (domain : string) :
  let d' := (DbHelper.mark_domain_used d true user_id domain).1 in
  DbHelper.check_domain_usage d' true user_id domain = true ∧
  (∀ user_id' domain', (user_id', domain') ≠ (user_id, domain) →
     DbHelper.check_domain_usage d' true user_id' domain' =
     DbHelper.check_domain_usage d true user_id' domain') ∧
  users d' = users d ∧ chats d' = chats d ∧
  length (domains_used d') = S (length (domains_used d)).
Proof.
  intros d'. subst d'. unfold DbHelper.mark_domain_used,
    DbHelper.check_domain_usage, domain_used.
  cbn [fst users chats domains_used].
  split; [|split; [|split; [done|split; [done|]]]].
  - apply bool_decide_eq_true, elem_of_app. right. apply list_elem_of_here.
  - intros user_id' domain' Hne. apply bool_decide_ext.
    rewrite elem_of_app, list_elem_of_singleton. tauto.
  - rewrite length_app. simpl. lia.
Qed.
